(** * UrbanMart daily sales aggregation: [compute_daily_sales]

    A shallow embedding of [urbanmart_analysis.compute_daily_sales] and the
    properties of its output table, followed by the two scripts of [app.py]
    as far as they compute: the date range and the figures of the daily
    revenue dashboard, and the loader and the first page of the NovaMart
    dashboard.

    Conventions of the embedding.
    - A pandas [datetime64[ns]] value is the integer number of nanoseconds
      since the epoch ([Z]); [NaT] is [None].  No arithmetic of the pipeline
      leaves the interval spanned by the input dates, so the 64-bit range
      plays a role only where a bound is given as an integer.
    - Numeric columns ([quantity], [unit_price], [discount_applied] and the
      columns derived from them) are exact rationals ([Qc]); binary
      floating-point rounding is not part of the model.
    - A data frame is the list of its rows, in file order.  The grouped frame
      is a finite map from the group key to the aggregated values.
    - Exceptions are values of [error], one for each call of pandas that
      can raise; reading the CSV file is a read of an explicit file store
      that is threaded through the call.
    - The clock enters a call through the date-string parser of pandas
      alone, which is a parameter of the pipeline: the parser as it
      answers at the time of the call. *)

From Stdlib Require Import ZArith QArith Qcanon.
From stdpp Require Import base numbers option list strings gmap sorting.

Local Open Scope Z_scope.

(** ** Numbers and timestamps *)

Definition NS_PER_DAY : Z := 86400000000000.

(** [Timestamp.normalize()] expressed as a day number: the calendar day a
    timestamp falls on, counted from 1970-01-01. *)
Definition calendar_day (t : Z) : Z := t `div` NS_PER_DAY.

(** The time-of-day component of a timestamp, in nanoseconds. *)
Definition time_of_day (t : Z) : Z := t `mod` NS_PER_DAY.

(** A timestamp that carries a calendar date only (midnight). *)
Definition date_only (t : Z) : Prop := time_of_day t = 0.

Global Instance date_only_dec t : Decision (date_only t).
Proof. unfold date_only. apply _. Defined.

(** The timestamp of midnight of day number [d]. *)
Definition midnight (d : Z) : Z := d * NS_PER_DAY.

(** ** Errors

    The code defines no exception class and has no [raise] and no
    [except]: a failing call lets an exception of pandas through.  The
    three calls that can raise give the three failures their names. *)

Inductive error :=
  | ReadError          (* pd.read_csv raises: there is no such file *)
  | ParseError         (* pd.to_datetime raises on a bound *)
  | DateRangeError.    (* pd.date_range raises on NaT end points *)

(** The Python class of the exception: [pd.read_csv] raises
    [FileNotFoundError] on a missing file; [pd.to_datetime] raises a
    [ValueError] (or one of its subclasses) on a bound that it cannot
    read; [pd.date_range] raises a plain [ValueError] ("Neither `start`
    nor `end` can be NaT"). *)
Definition exception_class (e : error) : string :=
  match e with
  | ReadError => "FileNotFoundError"
  | ParseError => "ValueError"
  | DateRangeError => "ValueError"
  end.

Inductive result (A : Type) :=
  | Ok (a : A)
  | Err (e : error).
Global Arguments Ok {A} a.
Global Arguments Err {A} e.

Global Instance result_ret : MRet result := λ A a, Ok a.

Global Instance result_bind : MBind result := λ A B k r,
  match r with
  | Ok a => k a
  | Err e => Err e
  end.

(** The call raises an exception of class [cls]. *)
Definition raises {A} (cls : string) (r : result A) : Prop :=
  ∃ e, r = Err e ∧ exception_class e = cls.

(** ** Input rows *)

Record record := {
  transaction_id : Z;
  date : Z;
  quantity : Qc;
  unit_price : Qc;
  discount_applied : Qc;
}.

(** A row of the frame after [df['line_revenue'] = ...]. *)
Record sales_row := {
  rec : record;
  line_revenue : Qc;
}.

Definition assign_line_revenue (df : list record) : list sales_row :=
  (λ r, {| rec := r;
           line_revenue := (quantity r * unit_price r - discount_applied r)%Qc |})
    <$> df.

(** ** The optional bounds

    [start_date] and [end_date] are arbitrary Python values; the code tests
    their truth value and hands the truthy ones to [pd.to_datetime]. *)

Inductive pyval :=
  | PyNone
  | PyInt (n : Z)
  | PyStr (s : string)
  | PyTimestamp (t : Z).

Definition truthy (v : pyval) : bool :=
  match v with
  | PyNone => false
  | PyInt n => negb (n =? 0)
  | PyStr s => negb (String.eqb s EmptyString)
  | PyTimestamp _ => true
  end.

(** [df[date_col] >= bound] and [df[date_col] <= bound], row by row; every
    comparison with [NaT] is false. *)
Definition ge_bound (bound : option Z) (r : sales_row) : Prop :=
  from_option (λ b, b ≤ date (rec r)) False bound.

Definition le_bound (bound : option Z) (r : sales_row) : Prop :=
  from_option (λ b, date (rec r) ≤ b) False bound.

Global Instance ge_bound_dec bound r : Decision (ge_bound bound r).
Proof. destruct bound; simpl; apply _. Defined.

Global Instance le_bound_dec bound r : Decision (le_bound bound r).
Proof. destruct bound; simpl; apply _. Defined.

(** ** Grouping: [df.groupby(date_col).agg(sum, nunique)]

    The group key is the value of the [date] column itself, a timestamp.
    Each group accumulates the sum of [line_revenue] and the set of the
    [transaction_id] values seen. *)

Record group_acc := {
  sum_revenue : Qc;
  seen_ids : gset Z;
}.

Definition empty_acc : group_acc :=
  {| sum_revenue := 0%Qc; seen_ids := ∅ |}.

Definition groupby_add (g : gmap Z group_acc) (r : sales_row)
  : gmap Z group_acc :=
  let a := default empty_acc (g !! date (rec r)) in
  <[date (rec r) :=
      {| sum_revenue := (sum_revenue a + line_revenue r)%Qc;
         seen_ids := seen_ids a ∪ {[transaction_id (rec r)]} |}]> g.

Definition groupby (df : list sales_row) : gmap Z group_acc :=
  foldl groupby_add ∅ df.

(** [daily_revenue=('line_revenue','sum')] and
    [daily_transactions=('transaction_id','nunique')]. *)
Definition agg (g : gmap Z group_acc) : gmap Z (Qc * nat) :=
  (λ a, (sum_revenue a, size (seen_ids a))) <$> g.

(** [.sort_index()]: the grouped frame is keyed by date and every later step
    reads it by key, so the row order it fixes is not observable. *)
Definition sort_index (g : gmap Z (Qc * nat)) : gmap Z (Qc * nat) := g.

(** [grouped.index.min()] and [grouped.index.max()]; [NaT] on an empty
    index. *)
Definition index_min (g : gmap Z (Qc * nat)) : option Z :=
  foldr (λ k m, Some (from_option (Z.min k) k m)) None (elements (dom g)).

Definition index_max (g : gmap Z (Qc * nat)) : option Z :=
  foldr (λ k m, Some (from_option (Z.max k) k m)) None (elements (dom g)).

(** [pd.date_range(start, end, freq='D')]: the timestamps [start],
    [start + 1 day], ... that do not exceed [end]; on an end point that is
    [NaT] it raises a [ValueError]. *)
Definition daily_steps (s e : Z) : list Z :=
  (λ k, s + k * NS_PER_DAY) <$> seqZ 0 ((e - s) `div` NS_PER_DAY + 1).

Definition date_range (start end_ : option Z) : result (list Z) :=
  match start, end_ with
  | Some s, Some e => Ok (daily_steps s e)
  | _, _ => Err DateRangeError
  end.

(** [grouped.reindex(full_index, fill_value=0.0)]: one row per entry of
    [full_index], in that order; a key without a group gets the fill value in
    both columns (for the count, the number zero). *)
Definition reindex (full_index : list Z) (fill_value : Qc * nat)
    (g : gmap Z (Qc * nat)) : list (Z * (Qc * nat)) :=
  (λ t, (t, default fill_value (g !! t))) <$> full_index.

(** ** Derived columns *)

(** [Series.cumsum()]. *)
Fixpoint cumsum_from (acc : Qc) (xs : list Qc) : list Qc :=
  match xs with
  | [] => []
  | x :: xs' => (acc + x)%Qc :: cumsum_from (acc + x)%Qc xs'
  end.

Definition cumsum (xs : list Qc) : list Qc := cumsum_from 0%Qc xs.

(** [Series.rolling(window, min_periods).mean()] as pandas computes it: one
    pass that keeps the running sum and the number of observations of the
    current window, removing the value that leaves the window and adding the
    one that enters it.  [None] is [NaN]. *)
Definition roll_step (window : nat) (vals : list Qc) (st : Qc * nat) (i : nat)
  : Qc * nat :=
  let st1 :=
    if bool_decide (window ≤ i)%nat
    then ((st.1 - default 0 (vals !! (i - window)%nat))%Qc, pred st.2)
    else st in
  ((st1.1 + default 0 (vals !! i))%Qc, S st1.2).

Definition calc_mean (min_periods : nat) (st : Qc * nat) : option Qc :=
  if bool_decide (min_periods ≤ st.2)%nat && bool_decide (0 < st.2)%nat
  then Some (st.1 / Qc_of_Z (Z.of_nat st.2))%Qc
  else None.

Fixpoint roll_mean_loop (window min_periods : nat) (vals : list Qc)
    (st : Qc * nat) (idx : list nat) : list (option Qc) :=
  match idx with
  | [] => []
  | i :: idx' =>
      let st' := roll_step window vals st i in
      calc_mean min_periods st'
        :: roll_mean_loop window min_periods vals st' idx'
  end.

Definition rolling_mean (window min_periods : nat) (vals : list Qc)
  : list (option Qc) :=
  roll_mean_loop window min_periods vals (0%Qc, 0%nat) (seq 0 (length vals)).

(** [DatetimeIndex.day_name()]; 1970-01-01 was a Thursday. *)
Definition day_names : list string :=
  ["Monday"; "Tuesday"; "Wednesday"; "Thursday"; "Friday"; "Saturday";
   "Sunday"]%string.

Definition day_name (t : Z) : string :=
  default EmptyString
    (day_names !! Z.to_nat ((calendar_day t + 3) `mod` 7)).

(** ** The output table *)

Record daily_summary := {
  index : Z;                      (* the index, named 'date' *)
  daily_revenue : Qc;
  daily_transactions : nat;
  cumulative_revenue : Qc;
  moving_avg_7d : option Qc;
  day_of_week : string;
}.

Definition add_columns (grouped : list (Z * (Qc * nat))) : list daily_summary :=
  let revenue := (λ row, row.2.1) <$> grouped in
  zip_with
    (λ row cols,
       {| index := row.1;
          daily_revenue := row.2.1;
          daily_transactions := row.2.2;
          cumulative_revenue := cols.1;
          moving_avg_7d := cols.2;
          day_of_week := day_name row.1 |})
    grouped (zip (cumsum revenue) (rolling_mean 7 1 revenue)).

(** Grouping, re-indexing and the derived columns: the part of
    [compute_daily_sales] that follows the two filters. *)
Definition aggregate (df : list sales_row) : result (list daily_summary) :=
  let grouped := sort_index (agg (groupby df)) in
  full_index ← date_range (index_min grouped) (index_max grouped);
  Ok (add_columns (reindex full_index (0%Qc, 0%nat) grouped)).

(** The bounds of a 64-bit signed integer, the carrier of
    [datetime64[ns]]. *)
Definition INT64_MIN : Z := - 2 ^ 63.
Definition INT64_MAX : Z := 2 ^ 63 - 1.

Section Pipeline.

(** pandas' date-string parser as it answers at the time of the call:
    [None] when it raises, [Some None] for a string that denotes [NaT].
    It is not a function of the string alone: pandas reads the strings
    "now" and "today" from the clock, so the parser of a later call may
    answer differently. *)
Variable parse_datetime : string → option (option Z).

(** [pd.to_datetime(v)] of a scalar.  An integer counts nanoseconds since
    the epoch: the least int64 is the bit pattern of [NaT], and an
    integer outside int64 is refused. *)
Definition to_datetime (v : pyval) : result (option Z) :=
  match v with
  | PyNone => Ok None
  | PyInt n =>
      if bool_decide (n = INT64_MIN) then Ok None
      else if bool_decide (INT64_MIN < n ≤ INT64_MAX) then Ok (Some n)
      else Err ParseError
  | PyStr s =>
      match parse_datetime s with
      | Some t => Ok t
      | None => Err ParseError
      end
  | PyTimestamp t => Ok (Some t)
  end.

(** [if start_date: df = df[df[date_col] >= pd.to_datetime(start_date)]] *)
Definition filter_start (start_date : pyval) (df : list sales_row)
  : result (list sales_row) :=
  if truthy start_date then
    b ← to_datetime start_date; Ok (filter (ge_bound b) df)
  else Ok df.

(** [if end_date: df = df[df[date_col] <= pd.to_datetime(end_date)]] *)
Definition filter_end (end_date : pyval) (df : list sales_row)
  : result (list sales_row) :=
  if truthy end_date then
    b ← to_datetime end_date; Ok (filter (le_bound b) df)
  else Ok df.

Definition filter_bounds (start_date end_date : pyval) (df : list sales_row)
  : result (list sales_row) :=
  df1 ← filter_start start_date df; filter_end end_date df1.

(** The body of [compute_daily_sales] once the file has been read. *)
Definition daily_sales (df : list record) (start_date end_date : pyval)
  : result (list daily_summary) :=
  df ← filter_bounds start_date end_date (assign_line_revenue df);
  aggregate df.

(** ** The call, with the file store it reads *)

Definition IO (A : Type) : Type :=
  gmap string (list record) → result A * gmap string (list record).

(** [pd.read_csv(csv_path, parse_dates=[date_col])]. *)
Definition read_csv (csv_path : string) : IO (list record) :=
  λ fs, (from_option Ok (Err ReadError) (fs !! csv_path), fs).

(** [date_col] keeps its default: the column that is parsed, compared and
    grouped on is the field [date]. *)
Definition compute_daily_sales (csv_path : string)
    (start_date end_date : pyval) : IO (list daily_summary) :=
  λ fs,
    let (df, fs1) := read_csv csv_path fs in
    (df ← df; daily_sales df start_date end_date, fs1).

End Pipeline.

(** ** Vocabulary of the properties *)

Definition sum_Qc (xs : list Qc) : Qc := foldr Qcplus 0%Qc xs.

(** The arithmetic mean of a non-empty list. *)
Definition mean (xs : list Qc) : Qc :=
  (sum_Qc xs / Qc_of_Z (Z.of_nat (length xs)))%Qc.

(** The elements at the positions [lo], ..., [hi], both included. *)
Definition slice {A} (lo hi : nat) (l : list A) : list A :=
  take (S hi - lo) (drop lo l).

(** The number of distinct values in a list. *)
Definition nunique (ids : list Z) : nat := length (remove_dups ids).

(** The rows whose [date] value is exactly the timestamp [t]. *)
Definition rows_at (t : Z) (df : list sales_row) : list sales_row :=
  filter (λ r, date (rec r) = t) df.

(** The rows dated on the calendar day of the timestamp [t], whatever their
    time of day. *)
Definition rows_on_day_of (t : Z) (df : list sales_row) : list sales_row :=
  filter (λ r, calendar_day (date (rec r)) = calendar_day t) df.

(** [quantity * unit_price - discount_applied] of an input record. *)
Definition net_amount (r : record) : Qc :=
  (quantity r * unit_price r - discount_applied r)%Qc.

(** A group after the rows [rs] have been added to it. *)
Definition acc_add_all (a : group_acc) (rs : list sales_row) : group_acc :=
  {| sum_revenue := (sum_revenue a + sum_Qc (line_revenue <$> rs))%Qc;
     seen_ids := seen_ids a ∪ list_to_set (transaction_id ∘ rec <$> rs) |}.

(** The values in the window when the rolling pass reaches position [k]:
    those at the positions [k - window], ..., [k - 1] that exist. *)
Definition window_before (window : nat) (vals : list Qc) (k : nat)
  : list Qc :=
  take (Nat.min k window) (drop (k - window) vals).

(** [m] is the earliest (latest) of the dates [ds]. *)
Definition earliest (m : Z) (ds : list Z) : Prop :=
  m ∈ ds ∧ Forall (λ d, m ≤ d) ds.

Definition latest (m : Z) (ds : list Z) : Prop :=
  m ∈ ds ∧ Forall (λ d, d ≤ m) ds.

Global Instance earliest_dec m ds : Decision (earliest m ds).
Proof. unfold earliest. apply _. Defined.

Global Instance latest_dec m ds : Decision (latest m ds).
Proof. unfold latest. apply _. Defined.

(** Strictly increasing, position by position. *)
Definition ascending (l : list Z) : Prop :=
  ∀ i j a b, (i < j)%nat → l !! i = Some a → l !! j = Some b → a < b.

(** The output has exactly one row per calendar day of the closed span from
    the earliest to the latest calendar day of the records [df], in
    ascending order: [dn - d0 + 1] rows. *)
Definition one_row_per_day (df : list sales_row) (out : list daily_summary)
  : Prop :=
  ∃ d0 dn,
    earliest d0 (calendar_day ∘ date ∘ rec <$> df) ∧
    latest dn (calendar_day ∘ date ∘ rec <$> df) ∧
    calendar_day ∘ index <$> out = seqZ d0 (dn - d0 + 1) ∧
    length out = Z.to_nat (dn - d0 + 1) ∧
    ascending (index <$> out).

(** Every row carries the net amount of all the records dated on its
    calendar day. *)
Definition revenue_by_day (df : list sales_row) (out : list daily_summary)
  : Prop :=
  ∀ row, row ∈ out →
    daily_revenue row
    = sum_Qc (net_amount ∘ rec <$> rows_on_day_of (index row) df).

(** Every row counts the distinct transactions of all the records dated on
    its calendar day. *)
Definition transactions_by_day (df : list sales_row)
    (out : list daily_summary) : Prop :=
  ∀ row, row ∈ out →
    daily_transactions row
    = nunique (transaction_id ∘ rec <$> rows_on_day_of (index row) df).

(** The records of one calendar day end up in one row, whatever their times
    of day: the calendar day of every record has exactly one row, and that
    row aggregates all the records of the day. *)
Definition grouped_by_calendar_day (df : list sales_row)
    (out : list daily_summary) : Prop :=
  ∀ r, r ∈ df →
    ∃ row,
      filter (λ row', calendar_day (index row')
                      = calendar_day (date (rec r))) out = [row] ∧
      daily_revenue row
      = sum_Qc (line_revenue <$> rows_on_day_of (date (rec r)) df) ∧
      daily_transactions row
      = nunique (transaction_id ∘ rec <$> rows_on_day_of (date (rec r)) df).

(** The records are grouped by the exact value of [date]: every row
    aggregates the records whose timestamp is the row's. *)
Definition grouped_by_timestamp (df : list sales_row)
    (out : list daily_summary) : Prop :=
  ∀ row, row ∈ out →
    daily_revenue row = sum_Qc (line_revenue <$> rows_at (index row) df) ∧
    daily_transactions row
    = nunique (transaction_id ∘ rec <$> rows_at (index row) df).

(** The table [aggregate] returns, column by column. *)
Record aggregated (df : list sales_row) (first last : Z)
    (out : list daily_summary) : Prop := {
  agg_earliest : earliest first (date ∘ rec <$> df);
  agg_latest : latest last (date ∘ rec <$> df);
  agg_index : index <$> out = daily_steps first last;
  agg_row : ∀ row, row ∈ out →
    daily_revenue row = sum_Qc (line_revenue <$> rows_at (index row) df) ∧
    daily_transactions row
      = nunique (transaction_id ∘ rec <$> rows_at (index row) df);
  agg_cumulative :
    cumulative_revenue <$> out = cumsum (daily_revenue <$> out);
  agg_moving_avg :
    moving_avg_7d <$> out = rolling_mean 7 1 (daily_revenue <$> out);
}.

(** [kept] is the set of records the call aggregates: the rows of the file
    that remain after the two filters. *)
Definition post_filter (parse_datetime : string → option (option Z))
    (fs : gmap string (list record)) (csv_path : string)
    (start_date end_date : pyval) (kept : list sales_row) : Prop :=
  ∃ df, fs !! csv_path = Some df ∧
        filter_bounds parse_datetime start_date end_date
          (assign_line_revenue df) = Ok kept.

(** The call returns the table [out]. *)
Definition returns (parse_datetime : string → option (option Z))
    (fs : gmap string (list record)) (csv_path : string)
    (start_date end_date : pyval) (out : list daily_summary) : Prop :=
  (compute_daily_sales parse_datetime csv_path start_date end_date fs).1
  = Ok out.

(** ** Sample inputs *)

(** A stand-in for pandas' parser that knows three strings. *)
Definition sample_parser (s : string) : option (option Z) :=
  if String.eqb s "2024-01-02" then Some (Some (midnight 19724))
  else if String.eqb s "2024-01-03" then Some (Some (midnight 19725))
  else if String.eqb s "NaT" then Some None
  else None.

(** The same stand-in at a reading [now] of the clock: as pandas does, it
    reads the strings "now" and "today" from the clock. *)
Definition clock_parser (now : Z) (s : string) : option (option Z) :=
  if String.eqb s "now" then Some (Some now)
  else if String.eqb s "today" then Some (Some now)
  else sample_parser s.

Definition NS_PER_HOUR : Z := 3600000000000.

Definition csv : string := "urbanmart_sales.csv".

Definition line (tx : Z) (t : Z) (qty price disc : Z) : record :=
  {| transaction_id := tx; date := t; quantity := Qc_of_Z qty;
     unit_price := Qc_of_Z price; discount_applied := Qc_of_Z disc |}.

(** 2024-01-01 and 2024-01-03, dates only. *)
Definition sales_dates : list record :=
  [ line 1 (midnight 19723) 2 10 0;
    line 2 (midnight 19725) 1 5 1 ].

(** Two line items of one transaction and a third sale, whose discount
    exceeds its price, all on 2024-01-01. *)
Definition sales_items : list record :=
  [ line 7 (midnight 19723) 1 5 0;
    line 7 (midnight 19723) 2 3 1;
    line 8 (midnight 19723) 1 4 9 ].

(** Two sales on 2024-01-01, at 10:00 and at 15:00. *)
Definition sales_times : list record :=
  [ line 1 (midnight 19723 + 10 * NS_PER_HOUR) 1 5 0;
    line 2 (midnight 19723 + 15 * NS_PER_HOUR) 1 7 0 ].

(** A sale on 2024-01-01 at 23:00 and one on 2024-01-03 at 01:00. *)
Definition sales_late : list record :=
  [ line 1 (midnight 19723 + 23 * NS_PER_HOUR) 1 5 0;
    line 2 (midnight 19725 + 1 * NS_PER_HOUR) 1 7 0 ].

(** A sale on 2024-01-01 and one on 2024-01-09, dates only. *)
Definition sales_nine_days : list record :=
  [ line 1 (midnight 19723) 7 10 0;
    line 2 (midnight 19731) 1 9 2 ].

Definition store (df : list record) : gmap string (list record) :=
  {[ csv := df ]}.

Definition table_of (r : result (list daily_summary)) : list daily_summary :=
  match r with
  | Ok out => out
  | Err _ => []
  end.

Definition run (df : list record) (start_date end_date : pyval)
  : list daily_summary :=
  table_of
    (compute_daily_sales sample_parser csv start_date end_date (store df)).1.

Definition table_dates : list daily_summary :=
  Eval vm_compute in run sales_dates PyNone PyNone.

Definition table_items : list daily_summary :=
  Eval vm_compute in run sales_items PyNone PyNone.

Definition table_times : list daily_summary :=
  Eval vm_compute in run sales_times PyNone PyNone.

Definition table_late : list daily_summary :=
  Eval vm_compute in run sales_late PyNone PyNone.

Definition table_nine_days : list daily_summary :=
  Eval vm_compute in run sales_nine_days PyNone PyNone.

(** ** The daily revenue dashboard of [app.py]

    The script computes the table of ['urbanmart_sales.csv'] without bounds,
    offers two date pickers that range over the days of the table, shows the
    rows between the two picked days and four figures about them.  The
    charts, the layout and the formatting of the figures are not modelled. *)

(** [df.loc[a:b]] with two timestamps on a frame whose index ascends: the
    rows whose timestamp lies between [a] and [b], both included. *)
Definition loc_slice (a b : Z) (df : list daily_summary)
  : list daily_summary :=
  filter (λ row, a ≤ index row ∧ index row ≤ b) df.

(** [df.index.min()] and [df.index.max()]; [NaT] on an empty frame. *)
Definition frame_min (df : list daily_summary) : option Z :=
  foldr (λ k m, Some (from_option (Z.min k) k m)) None (index <$> df).

Definition frame_max (df : list daily_summary) : option Z :=
  foldr (λ k m, Some (from_option (Z.max k) k m)) None (index <$> df).

(** [Series.mean()]: [NaN] on an empty series. *)
Definition series_mean (xs : list Qc) : option Qc :=
  if decide (xs = []) then None else Some (mean xs).

(** The four figures of the metric cards. *)
Record metrics := {
  total_revenue : Qc;          (* df_filtered['daily_revenue'].sum() *)
  total_days : nat;            (* len(df_filtered) *)
  avg_revenue : option Qc;     (* df_filtered['daily_revenue'].mean() *)
  total_transactions : nat;    (* df_filtered['daily_transactions'].sum() *)
}.

Definition summarize (df_filtered : list daily_summary) : metrics :=
  {| total_revenue := sum_Qc (daily_revenue <$> df_filtered);
     total_days := length df_filtered;
     avg_revenue := series_mean (daily_revenue <$> df_filtered);
     total_transactions := sum_list (daily_transactions <$> df_filtered) |}.

(** What the page shows: the filtered table and the figures. *)
Record page := {
  df_filtered : list daily_summary;
  figures : metrics;
}.

(** [st.sidebar.date_input(..., min_value, max_value, value)]: the day the
    user picked, which the widget confines to the range, and [value] as long
    as the user has picked none.  Days are day numbers. *)
Definition date_input (value : Z) (picked : option Z) : Z :=
  default value picked.

Section Dashboard.

Variable parse_datetime : string → option (option Z).

Definition dashboard (picked_start picked_end : option Z) : IO page :=
  λ fs,
    let (df_daily, fs1) :=
      compute_daily_sales parse_datetime "urbanmart_sales.csv"
        PyNone PyNone fs in
    (df_daily ← df_daily;
     match frame_min df_daily, frame_max df_daily with
     | Some lo, Some hi =>
         let min_date := calendar_day lo in
         let max_date := calendar_day hi in
         let start := date_input min_date picked_start in
         let end_ := date_input max_date picked_end in
         let df_filtered :=
           loc_slice (midnight start) (midnight end_) df_daily in
         Ok {| df_filtered := df_filtered;
               figures := summarize df_filtered |}
     | _, _ => Err DateRangeError   (* not reached: a table has rows *)
     end, fs1).

End Dashboard.

(** ** The NovaMart dashboard of [app.py]: loader and first page

    Of the second script the loader [load_data] and the figures of the page
    "Executive Overview" are modelled; the charts are not. *)

(** The entries of the dictionary [load_data] builds: key and file. *)
Definition data_files : list (string * string) :=
  [ ("campaign", "campaign_performance.csv");
    ("customers", "customer_data.csv");
    ("product", "product_sales.csv");
    ("lead", "lead_scoring_results.csv");
    ("feature", "feature_importance.csv");
    ("learning", "learning_curve.csv");
    ("geo", "geographic_data.csv");
    ("attribution", "channel_attribution.csv");
    ("funnel", "funnel_data.csv");
    ("journey", "customer_journey.csv");
    ("corr", "correlation_matrix.csv") ]%string.

Section Loader.

(** A data frame as [pd.read_csv] returns it. *)
Variable frame : Type.

(** The dictionary display: the entries are evaluated in order, every one
    reads its file, and the first read that fails ends the evaluation. *)
Fixpoint read_all (data : gmap string frame) (entries : list (string * string))
    (fs : gmap string frame) : result (gmap string frame) :=
  match entries with
  | [] => Ok data
  | (key, path) :: entries' =>
      match fs !! path with
      | Some df => read_all (<[key := df]> data) entries' fs
      | None => Err ReadError
      end
  end.

(** The state the loader lives in: the files, and the value that
    [@st.cache_data] keeps once the function has returned one. *)
Record app_state := {
  files : gmap string frame;
  cache : option (gmap string frame);
}.

Definition load_data (st : app_state)
  : result (gmap string frame) * app_state :=
  match cache st with
  | Some data => (Ok data, st)
  | None =>
      match read_all ∅ data_files (files st) with
      | Ok data => (Ok data, {| files := files st; cache := Some data |})
      | Err e => (Err e, st)
      end
  end.

End Loader.

Global Arguments files {frame} _.
Global Arguments cache {frame} _.

(** The columns of the campaign frame that the first page reads. *)
Record campaign_row := {
  channel : string;
  revenue : Qc;
  conversions : Z;
  roas : Qc;
}.

(** [campaign.groupby("channel")["revenue"].sum()]: the running total of
    every channel. *)
Definition channel_add (g : gmap string Qc) (r : campaign_row)
  : gmap string Qc :=
  <[channel r := (default 0 (g !! channel r) + revenue r)%Qc]> g.

(** The order of the group keys: strings compare as Python compares them. *)
Definition channel_le (a b : string * Qc) : Prop := String.leb a.1 b.1 = true.

Global Instance channel_le_dec a b : Decision (channel_le a b).
Proof. unfold channel_le. apply _. Defined.

(** [... .reset_index()]: one row per channel, in the order of the keys. *)
Definition channel_revenue (campaign : list campaign_row)
  : list (string * Qc) :=
  merge_sort channel_le (map_to_list (foldl channel_add ∅ campaign)).

(** The figures and the bars of the page "Executive Overview". *)
Record overview := {
  kpi_revenue : Qc;             (* campaign['revenue'].sum() *)
  kpi_conversions : Z;          (* campaign['conversions'].sum() *)
  kpi_avg_roas : option Qc;     (* campaign['roas'].mean() *)
  kpi_customers : nat;          (* customers.shape[0] *)
  channel_bars : list (string * Qc);
}.

Definition executive_overview {customer} (campaign : list campaign_row)
    (customers : list customer) : overview :=
  {| kpi_revenue := sum_Qc (revenue <$> campaign);
     kpi_conversions := foldr Z.add 0 (conversions <$> campaign);
     kpi_avg_roas := series_mean (roas <$> campaign);
     kpi_customers := length customers;
     channel_bars := channel_revenue campaign |}.

(** A campaign frame with three channels. *)
Definition campaign_sample : list campaign_row :=
  [ {| channel := "Search"; revenue := Qc_of_Z 40; conversions := 4;
       roas := Qc_of_Z 2 |};
    {| channel := "Email"; revenue := Qc_of_Z 10; conversions := 1;
       roas := Qc_of_Z 5 |};
    {| channel := "Search"; revenue := Qc_of_Z 25; conversions := 2;
       roas := Qc_of_Z 3 |};
    {| channel := "Social"; revenue := Qc_of_Z 5; conversions := 0;
       roas := Qc_of_Z 2 |} ]%string.

(** A file store with the eleven files of the loader, where a frame is
    stood for by a number, and the same store without one of the files. *)
Definition all_files : gmap string nat :=
  list_to_map ((λ e, (e.2, String.length e.1)) <$> data_files).

Definition files_without_journey : gmap string nat :=
  delete "customer_journey.csv"%string all_files.

(** ** More sample inputs *)

(** The table of [sales_dates] from 2024-01-02 on. *)
Definition table_dates_from_02 : list daily_summary :=
  Eval vm_compute in run sales_dates (PyStr "2024-01-02") PyNone.

(** The rows of [sales_dates] in the opposite order. *)
Definition sales_dates_reversed : list record := reverse sales_dates.

(** * Properties *)

(** ** Sums *)

Lemma sum_Qc_app xs ys : sum_Qc (xs ++ ys) = (sum_Qc xs + sum_Qc ys)%Qc.
Proof.
  induction xs as [|x xs IH]; simpl.
  - by rewrite Qcplus_0_l.
  - by rewrite IH, Qcplus_assoc.
Qed.

Lemma sum_Qc_nonneg xs : Forall (λ x, (0 ≤ x)%Qc) xs → (0 ≤ sum_Qc xs)%Qc.
Proof.
  induction 1 as [|x xs Hx _ IH]; simpl; [done|].
  rewrite <-(Qcplus_0_l 0). by apply Qcplus_le_compat.
Qed.

(** ** Grouping *)

Lemma acc_add_all_nil a : acc_add_all a [] = a.
Proof.
  destruct a as [s ids]. unfold acc_add_all; simpl.
  by rewrite Qcplus_0_r, (right_id_L ∅ (∪)).
Qed.

Lemma foldl_groupby_add_acc df g t :
  default empty_acc (foldl groupby_add g df !! t)
  = acc_add_all (default empty_acc (g !! t)) (rows_at t df).
Proof.
  revert g. induction df as [|r df IH]; intros g; simpl.
  - by rewrite acc_add_all_nil.
  - rewrite IH. unfold rows_at, groupby_add.
    destruct (decide (date (rec r) = t)) as [Heq|Hne].
    + rewrite filter_cons_True by exact Heq. rewrite Heq, lookup_insert_eq.
      unfold acc_add_all; simpl. f_equal.
      * by rewrite Qcplus_assoc.
      * by rewrite (assoc_L (∪)).
    + rewrite filter_cons_False by exact Hne. by rewrite lookup_insert_ne.
Qed.

Lemma foldl_groupby_add_dom df g :
  dom (foldl groupby_add g df) = dom g ∪ list_to_set (date ∘ rec <$> df).
Proof.
  revert g. induction df as [|r df IH]; intros g; simpl.
  - by rewrite (right_id_L ∅ (∪)).
  - rewrite IH. unfold groupby_add. rewrite dom_insert_L.
    rewrite (comm_L (∪) _ (dom g)).
    by rewrite (assoc_L (∪)).
Qed.

Lemma dom_agg_groupby df :
  dom (sort_index (agg (groupby df))) = list_to_set (date ∘ rec <$> df).
Proof.
  unfold sort_index, agg, groupby.
  rewrite dom_fmap_L, foldl_groupby_add_dom, dom_empty_L.
  by rewrite (left_id_L ∅ (∪)).
Qed.

(** What [reindex] reads at the key [t]: the aggregate of the rows whose
    date is exactly [t]; for a key without rows this is the fill value. *)
Lemma lookup_agg_groupby df t :
  default (0%Qc, 0%nat) (sort_index (agg (groupby df)) !! t)
  = (sum_Qc (line_revenue <$> rows_at t df),
     nunique (transaction_id ∘ rec <$> rows_at t df)).
Proof.
  unfold sort_index, agg. rewrite lookup_fmap.
  pose proof (foldl_groupby_add_acc df ∅ t) as Hacc.
  rewrite lookup_empty in Hacc. simpl in Hacc. fold (groupby df) in Hacc.
  assert (Hnu : ∀ l : list Z,
            size (list_to_set l : gset Z) = nunique l).
  { intros l. unfold nunique.
    rewrite <-(size_list_to_set (C:=gset Z) (remove_dups l))
      by apply NoDup_remove_dups.
    f_equal. apply set_eq. intros x.
    by rewrite !elem_of_list_to_set, elem_of_remove_dups. }
  destruct (groupby df !! t) as [a|] eqn:Hg; simpl in *.
  - subst a. unfold acc_add_all; simpl.
    by rewrite Qcplus_0_l, (left_id_L ∅ (∪)), Hnu.
  - destruct (rows_at t df) as [|r rs] eqn:Hrs; [done|].
    exfalso. apply (f_equal seen_ids) in Hacc. simpl in Hacc.
    set_solver.
Qed.

(** ** The end points of the index *)

Lemma foldr_min_spec (l : list Z) :
  match foldr (λ k m, Some (from_option (Z.min k) k m)) None l with
  | None => l = []
  | Some m => earliest m l
  end.
Proof.
  induction l as [|k l IH]; simpl; [done|].
  destruct (foldr _ None l) as [m|]; simpl.
  - destruct IH as [Hin Hall]. split.
    + destruct (Z.min_spec k m) as [[_ ->]|[_ ->]];
        [apply list_elem_of_here | by apply list_elem_of_further].
    + constructor; [lia|].
      eapply Forall_impl; [exact Hall|]. simpl; intros; lia.
  - subst l. split; [apply list_elem_of_here|]. by repeat constructor.
Qed.

Lemma foldr_max_spec (l : list Z) :
  match foldr (λ k m, Some (from_option (Z.max k) k m)) None l with
  | None => l = []
  | Some m => latest m l
  end.
Proof.
  induction l as [|k l IH]; simpl; [done|].
  destruct (foldr _ None l) as [m|]; simpl.
  - destruct IH as [Hin Hall]. split.
    + destruct (Z.max_spec k m) as [[_ ->]|[_ ->]];
        [by apply list_elem_of_further | apply list_elem_of_here].
    + constructor; [lia|].
      eapply Forall_impl; [exact Hall|]. simpl; intros; lia.
  - subst l. split; [apply list_elem_of_here|]. by repeat constructor.
Qed.

Lemma earliest_elements (X : gset Z) (ds : list Z) m :
  X = list_to_set ds → earliest m (elements X) → earliest m ds.
Proof.
  intros -> [Hin Hall]. rewrite Forall_forall in Hall. split.
  - by rewrite elem_of_elements, elem_of_list_to_set in Hin.
  - apply Forall_forall. intros d Hd. apply Hall.
    by rewrite elem_of_elements, elem_of_list_to_set.
Qed.

Lemma latest_elements (X : gset Z) (ds : list Z) m :
  X = list_to_set ds → latest m (elements X) → latest m ds.
Proof.
  intros -> [Hin Hall]. rewrite Forall_forall in Hall. split.
  - by rewrite elem_of_elements, elem_of_list_to_set in Hin.
  - apply Forall_forall. intros d Hd. apply Hall.
    by rewrite elem_of_elements, elem_of_list_to_set.
Qed.

Lemma earliest_unique m m' ds : earliest m ds → earliest m' ds → m = m'.
Proof.
  intros [Hin Hall] [Hin' Hall']. rewrite Forall_forall in Hall, Hall'.
  specialize (Hall _ Hin'). specialize (Hall' _ Hin). lia.
Qed.

Lemma latest_unique m m' ds : latest m ds → latest m' ds → m = m'.
Proof.
  intros [Hin Hall] [Hin' Hall']. rewrite Forall_forall in Hall, Hall'.
  specialize (Hall _ Hin'). specialize (Hall' _ Hin). lia.
Qed.

Lemma index_min_groupby df :
  match index_min (sort_index (agg (groupby df))) with
  | None => df = []
  | Some s => earliest s (date ∘ rec <$> df)
  end.
Proof.
  unfold index_min.
  pose proof (foldr_min_spec (elements (dom (sort_index (agg (groupby df))))))
    as H.
  destruct (foldr _ None _) as [s|].
  - eapply earliest_elements; [apply dom_agg_groupby | done].
  - apply elements_empty_inv in H. apply leibniz_equiv in H.
    rewrite dom_agg_groupby in H.
    destruct df as [|r df]; [done|]. exfalso.
    assert (date (rec r) ∈ (∅ : gset Z)) as Hin; [|set_solver].
    rewrite <-H. apply elem_of_list_to_set, list_elem_of_here.
Qed.

Lemma index_max_groupby df :
  match index_max (sort_index (agg (groupby df))) with
  | None => df = []
  | Some e => latest e (date ∘ rec <$> df)
  end.
Proof.
  unfold index_max.
  pose proof (foldr_max_spec (elements (dom (sort_index (agg (groupby df))))))
    as H.
  destruct (foldr _ None _) as [e|].
  - eapply latest_elements; [apply dom_agg_groupby | done].
  - apply elements_empty_inv in H. apply leibniz_equiv in H.
    rewrite dom_agg_groupby in H.
    destruct df as [|r df]; [done|]. exfalso.
    assert (date (rec r) ∈ (∅ : gset Z)) as Hin; [|set_solver].
    rewrite <-H. apply elem_of_list_to_set, list_elem_of_here.
Qed.

(** ** The derived columns have the length of the series *)

Lemma length_cumsum_from acc xs : length (cumsum_from acc xs) = length xs.
Proof. revert acc. induction xs; intros; simpl; auto. Qed.

Lemma length_roll_mean_loop w mp vals st idx :
  length (roll_mean_loop w mp vals st idx) = length idx.
Proof. revert st. induction idx; intros; simpl; auto. Qed.

Lemma length_rolling_mean w mp vals :
  length (rolling_mean w mp vals) = length vals.
Proof.
  unfold rolling_mean. by rewrite length_roll_mean_loop, length_seq.
Qed.

(** ** The columns of the output table *)

Lemma add_columns_grouped g :
  (λ r, (index r, (daily_revenue r, daily_transactions r))) <$> add_columns g
  = g.
Proof.
  unfold add_columns. apply fmap_zip_with_l.
  - by intros [t [v n]] cols.
  - rewrite length_zip_with.
    unfold cumsum. rewrite length_cumsum_from, length_rolling_mean.
    rewrite !length_fmap. lia.
Qed.

Lemma add_columns_index g : index <$> add_columns g = g.*1.
Proof.
  rewrite <-(add_columns_grouped g) at 2.
  rewrite <-list_fmap_compose. by apply list_fmap_ext.
Qed.

Lemma add_columns_revenue g :
  daily_revenue <$> add_columns g = (λ row, row.2.1) <$> g.
Proof.
  rewrite <-(add_columns_grouped g) at 2.
  rewrite <-list_fmap_compose. by apply list_fmap_ext.
Qed.

Lemma add_columns_derived g :
  (λ r, (cumulative_revenue r, moving_avg_7d r)) <$> add_columns g
  = zip (cumsum (daily_revenue <$> add_columns g))
        (rolling_mean 7 1 (daily_revenue <$> add_columns g)).
Proof.
  rewrite add_columns_revenue. unfold add_columns.
  apply fmap_zip_with_r.
  - by intros row [c m].
  - rewrite length_zip_with.
    unfold cumsum. rewrite length_cumsum_from, length_rolling_mean.
    rewrite !length_fmap. lia.
Qed.

Lemma add_columns_cumulative g :
  cumulative_revenue <$> add_columns g
  = cumsum (daily_revenue <$> add_columns g).
Proof.
  rewrite <-(fst_zip (cumsum _) (rolling_mean 7 1 (daily_revenue <$> add_columns g))).
  - rewrite <-add_columns_derived, <-list_fmap_compose.
    by apply list_fmap_ext.
  - unfold cumsum. rewrite length_cumsum_from, length_rolling_mean. lia.
Qed.

Lemma add_columns_moving_avg g :
  moving_avg_7d <$> add_columns g
  = rolling_mean 7 1 (daily_revenue <$> add_columns g).
Proof.
  rewrite <-(snd_zip (cumsum (daily_revenue <$> add_columns g))
                     (rolling_mean 7 1 _)).
  - rewrite <-add_columns_derived, <-list_fmap_compose.
    by apply list_fmap_ext.
  - unfold cumsum. rewrite length_cumsum_from, length_rolling_mean. lia.
Qed.

(** ** The shape of the aggregation *)

Lemma aggregate_nil : aggregate [] = Err DateRangeError.
Proof. reflexivity. Qed.

Lemma aggregate_Ok df : df ≠ [] → ∃ out, aggregate df = Ok out.
Proof.
  intros Hne. unfold aggregate.
  pose proof (index_min_groupby df) as Hmin.
  pose proof (index_max_groupby df) as Hmax.
  destruct (index_min _) as [s|]; [|done].
  destruct (index_max _) as [e|]; [|done].
  simpl. eauto.
Qed.

Lemma aggregate_aggregated df out :
  aggregate df = Ok out → ∃ first last, aggregated df first last out.
Proof.
  unfold aggregate.
  pose proof (index_min_groupby df) as Hmin.
  pose proof (index_max_groupby df) as Hmax.
  destruct (index_min _) as [s|]; [|done].
  destruct (index_max _) as [e|]; [|done].
  simpl. intros [= <-].
  set (g := reindex _ _ _).
  assert (Hg : ∀ t v n, (t, (v, n)) ∈ g →
            (v, n) = (sum_Qc (line_revenue <$> rows_at t df),
                      nunique (transaction_id ∘ rec <$> rows_at t df))).
  { intros t v n Hin. unfold g, reindex in Hin.
    apply list_elem_of_fmap in Hin as (t' & [= -> Hv] & _).
    by rewrite <-lookup_agg_groupby. }
  exists s, e. split; try done.
  - rewrite add_columns_index. unfold g, reindex.
    rewrite <-list_fmap_compose. simpl. apply list_fmap_id.
  - intros row Hrow.
    assert ((index row, (daily_revenue row, daily_transactions row)) ∈ g)
      as Hin.
    { rewrite <-(add_columns_grouped g).
      by apply (list_elem_of_fmap_2
        (λ r, (index r, (daily_revenue r, daily_transactions r)))). }
    apply Hg in Hin. by injection Hin as -> ->.
  - apply add_columns_cumulative.
  - apply add_columns_moving_avg.
Qed.

(** ** The running total *)

Section cumsum.
Local Open Scope nat_scope.

Lemma lookup_cumsum_from acc xs n :
  n < length xs →
  cumsum_from acc xs !! n = Some (acc + sum_Qc (take (S n) xs))%Qc.
Proof.
  revert acc n. induction xs as [|x xs IH]; intros acc n Hn; simpl in *.
  - lia.
  - destruct n as [|n]; simpl.
    + unfold sum_Qc; simpl. by rewrite Qcplus_0_r.
    + rewrite IH by lia. by rewrite Qcplus_assoc.
Qed.

Lemma lookup_cumsum xs n :
  n < length xs → cumsum xs !! n = Some (sum_Qc (take (S n) xs)).
Proof.
  intros Hn. unfold cumsum. rewrite lookup_cumsum_from by done.
  by rewrite Qcplus_0_l.
Qed.

Lemma sum_Qc_take_mono xs n m :
  Forall (λ x, (0 ≤ x)%Qc) xs → n ≤ m →
  (sum_Qc (take n xs) ≤ sum_Qc (take m xs))%Qc.
Proof.
  intros Hpos Hnm. replace m with (n + (m - n)) by lia.
  rewrite <-take_take_drop, sum_Qc_app.
  rewrite <-(Qcplus_0_r (sum_Qc (take n xs))) at 1.
  apply Qcplus_le_compat; [apply Qcle_refl|].
  by apply sum_Qc_nonneg, Forall_take, Forall_drop.
Qed.
End cumsum.

(** ** The rolling mean *)

Section rolling.
Local Open Scope nat_scope.
Variables (window min_periods : nat) (vals : list Qc).
Hypothesis window_pos : 0 < window.
Local Arguments Nat.min : simpl never.

Local Abbreviation window_before := (window_before window vals).

Lemma window_before_S k v :
  vals !! k = Some v →
  window_before (S k)
  = (if bool_decide (window ≤ k) then drop 1 (window_before k)
     else window_before k) ++ [v].
Proof using window_pos.
  intros Hv. unfold window_before. case_bool_decide as Hk.
  - rewrite Nat.min_r by lia. rewrite (Nat.min_r k) by lia.
    replace (S k - window) with (S (k - window)) by lia.
    destruct window as [|w]; [lia|].
    erewrite take_S_r; last first.
    { rewrite lookup_drop. replace (S (k - S w) + w) with k by lia. done. }
    f_equal.
    destruct (drop (k - S w) vals) as [|x d] eqn:Hd.
    + apply (f_equal length) in Hd. rewrite length_drop in Hd.
      apply lookup_lt_Some in Hv. simpl in Hd. lia.
    + replace (S (k - S w)) with (k - S w + 1) by lia.
      rewrite <-(drop_drop vals 1 (k - S w)), Hd. simpl.
      by rewrite drop_0.
  - rewrite !Nat.min_l by lia.
    replace (S k - window) with 0 by lia.
    replace (k - window) with 0 by lia.
    rewrite !drop_0. by apply take_S_r.
Qed.

Lemma window_before_head k :
  window ≤ k → k < length vals →
  ∃ x, vals !! (k - window) = Some x ∧
       window_before k = x :: drop 1 (window_before k).
Proof using window_pos.
  intros Hk Hlen. unfold window_before.
  rewrite Nat.min_r by lia.
  destruct (lookup_lt_is_Some_2 vals (k - window)) as [x Hx]; [lia|].
  exists x. split; [done|].
  assert (drop (k - window) vals !! 0 = Some x) as Hd.
  { by rewrite lookup_drop, Nat.add_0_r. }
  destruct (drop (k - window) vals) as [|y d]; simplify_eq/=.
  destruct window as [|w]; [lia|]. simpl. by rewrite drop_0.
Qed.

Lemma length_window_before k :
  k ≤ length vals → length (window_before k) = min k window.
Proof.
  intros Hk. unfold window_before. rewrite length_take, length_drop. lia.
Qed.

(** One step of the pass keeps the running sum and the count in line with
    the contents of the window. *)
Lemma roll_step_window k :
  k < length vals →
  roll_step window vals (sum_Qc (window_before k), min k window) k
  = (sum_Qc (window_before (S k)), min (S k) window).
Proof using window_pos.
  intros Hk.
  destruct (lookup_lt_is_Some_2 vals k Hk) as [v Hv].
  rewrite (window_before_S k v Hv). unfold roll_step. simpl.
  rewrite Hv. simpl. case_bool_decide as Hw.
  - destruct (window_before_head k Hw Hk) as (x & Hx & Hhd).
    rewrite Hx. simpl. rewrite sum_Qc_app. simpl.
    rewrite Hhd at 1. simpl. f_equal; [ring | lia].
  - simpl. rewrite sum_Qc_app. simpl. f_equal; [ring | lia].
Qed.

Lemma lookup_roll_mean_loop n k j :
  k + n ≤ length vals → j < n →
  roll_mean_loop window min_periods vals
    (sum_Qc (window_before k), min k window) (seq k n) !! j
  = Some (calc_mean min_periods
            (sum_Qc (window_before (S (k + j))), min (S (k + j)) window)).
Proof using window_pos.
  revert k j. induction n as [|n IH]; intros k j Hlen Hj; [lia|].
  simpl. rewrite roll_step_window by lia.
  destruct j as [|j]; simpl.
  - by rewrite Nat.add_0_r.
  - rewrite IH by lia. by rewrite Nat.add_succ_r.
Qed.

Lemma lookup_rolling_mean i :
  i < length vals →
  rolling_mean window min_periods vals !! i
  = Some (calc_mean min_periods
            (sum_Qc (window_before (S i)), min (S i) window)).
Proof using window_pos.
  intros Hi. unfold rolling_mean.
  change (0%Qc, 0) with (sum_Qc (window_before 0), min 0 window).
  by rewrite (lookup_roll_mean_loop (length vals) 0 i).
Qed.

Lemma window_before_slice i :
  window_before (S i) = slice (i - (window - 1)) i vals.
Proof using window_pos.
  unfold window_before, slice.
  replace (S i - window) with (i - (window - 1)) by lia.
  f_equal. lia.
Qed.
End rolling.

(** ** The daily index *)

Lemma NS_PER_DAY_pos : 0 < NS_PER_DAY.
Proof. reflexivity. Qed.

Lemma lookup_daily_steps s e i t :
  daily_steps s e !! i = Some t → t = s + Z.of_nat i * NS_PER_DAY.
Proof.
  unfold daily_steps. rewrite list_lookup_fmap.
  destruct (seqZ _ _ !! i) as [k|] eqn:Hk; [|done].
  apply lookup_seqZ in Hk as [-> _]. simpl. by intros [= <-].
Qed.

Lemma length_daily_steps s e :
  length (daily_steps s e) = Z.to_nat ((e - s) `div` NS_PER_DAY + 1).
Proof. unfold daily_steps. by rewrite length_fmap, length_seqZ. Qed.

Lemma ascending_daily_steps s e : ascending (daily_steps s e).
Proof.
  intros i j a b Hij Ha Hb.
  apply lookup_daily_steps in Ha, Hb. subst.
  pose proof NS_PER_DAY_pos. nia.
Qed.

Lemma date_only_midnight t : date_only t ↔ t = midnight (calendar_day t).
Proof.
  unfold date_only, time_of_day, midnight, calendar_day.
  pose proof (Z.div_mod t NS_PER_DAY). pose proof NS_PER_DAY_pos. lia.
Qed.

Lemma calendar_day_add t k :
  calendar_day (t + k * NS_PER_DAY) = calendar_day t + k.
Proof. unfold calendar_day. by rewrite Z.div_add. Qed.

Lemma date_only_add t k : date_only t → date_only (t + k * NS_PER_DAY).
Proof.
  unfold date_only, time_of_day. by rewrite Z.mod_add.
Qed.

Lemma date_only_inj a b :
  date_only a → date_only b → calendar_day a = calendar_day b → a = b.
Proof.
  rewrite !date_only_midnight. intros Ha Hb Hab.
  rewrite Ha, Hb. by rewrite Hab.
Qed.

Lemma date_only_daily_steps s e t :
  date_only s → t ∈ daily_steps s e → date_only t.
Proof.
  intros Hs [i Hi]%list_elem_of_lookup.
  apply lookup_daily_steps in Hi as ->. by apply date_only_add.
Qed.

Lemma calendar_day_daily_steps s e :
  date_only s → date_only e →
  calendar_day <$> daily_steps s e
  = seqZ (calendar_day s) (calendar_day e - calendar_day s + 1).
Proof.
  intros Hs He. unfold daily_steps.
  rewrite <-list_fmap_compose.
  rewrite (list_fmap_ext _ (Z.add (calendar_day s))); last first.
  { intros i k _. simpl. apply calendar_day_add. }
  rewrite fmap_add_seqZ, Z.add_0_r. f_equal.
  apply date_only_midnight in Hs, He. rewrite Hs, He at 1.
  unfold midnight. rewrite <-Z.mul_sub_distr_r.
  by rewrite Z.div_mul.
Qed.

Lemma earliest_calendar_day s ds :
  earliest s ds → earliest (calendar_day s) (calendar_day <$> ds).
Proof.
  intros [Hin Hall]. split.
  - by apply list_elem_of_fmap_2.
  - apply Forall_fmap. eapply Forall_impl; [exact Hall|].
    intros d Hd. simpl. apply Z.div_le_mono; [apply NS_PER_DAY_pos | done].
Qed.

Lemma latest_calendar_day e ds :
  latest e ds → latest (calendar_day e) (calendar_day <$> ds).
Proof.
  intros [Hin Hall]. split.
  - by apply list_elem_of_fmap_2.
  - apply Forall_fmap. eapply Forall_impl; [exact Hall|].
    intros d Hd. simpl. apply Z.div_le_mono; [apply NS_PER_DAY_pos | done].
Qed.

Lemma filter_ext_in {A} (P1 P2 : A → Prop)
    `{!∀ x, Decision (P1 x), !∀ x, Decision (P2 x)} (l : list A) :
  (∀ x, x ∈ l → P1 x ↔ P2 x) → filter P1 l = filter P2 l.
Proof.
  induction l as [|a l IH]; intros Hiff; [done|].
  assert (P1 a ↔ P2 a) as Ha by apply Hiff, list_elem_of_here.
  rewrite !filter_cons, IH.
  - destruct (decide (P1 a)), (decide (P2 a)); tauto.
  - intros x Hx. by apply Hiff, list_elem_of_further.
Qed.

(** For records that carry a date only, the group of a timestamp is the
    group of its calendar day. *)
Lemma rows_at_on_day t df :
  date_only t → Forall (λ r, date_only (date (rec r))) df →
  rows_at t df = rows_on_day_of t df.
Proof.
  intros Ht Hdf. rewrite Forall_forall in Hdf.
  apply filter_ext_in. intros r Hr. split.
  - by intros ->.
  - apply date_only_inj; auto.
Qed.

(** Whatever the times of day, the group of a timestamp is part of the
    group of its calendar day. *)
Lemma rows_at_nil_on_day t df : rows_on_day_of t df = [] → rows_at t df = [].
Proof.
  intros Hnil. unfold rows_at.
  destruct (filter _ df) as [|r rs] eqn:Hf; [done|]. exfalso.
  assert (r ∈ filter (λ r, date (rec r) = t) df) as Hin.
  { rewrite Hf. apply list_elem_of_here. }
  apply list_elem_of_filter in Hin as [Hd Hin].
  eapply (filter_nil_not_elem_of _ _ r Hnil); [|done].
  simpl. by rewrite Hd.
Qed.

(** ** The filters and the call *)

Lemma filter_nil_Forall {A} (P : A → Prop) `{!∀ x, Decision (P x)} l :
  Forall (λ x, ¬ P x) l → filter P l = [].
Proof.
  induction 1 as [|x l Hx _ IH]; [done|].
  by rewrite filter_cons_False.
Qed.

Lemma filter_all {A} (P : A → Prop) `{!∀ x, Decision (P x)} (l : list A) :
  Forall P l → filter P l = l.
Proof.
  induction 1 as [|x l Hx _ IH]; [done|].
  by rewrite filter_cons_True, IH.
Qed.

Lemma assign_line_revenue_elem df r :
  r ∈ assign_line_revenue df → line_revenue r = net_amount (rec r).
Proof.
  unfold assign_line_revenue.
  intros (r0 & -> & _)%list_elem_of_fmap. done.
Qed.

Section Call.

Variable parse_datetime : string → option (option Z).

Lemma filter_start_elem start_date df df' :
  filter_start parse_datetime start_date df = Ok df' →
  ∀ r, r ∈ df' ↔
       r ∈ df ∧
       (truthy start_date = true →
        ∃ b, to_datetime parse_datetime start_date = Ok (Some b) ∧
             b ≤ date (rec r)).
Proof.
  unfold filter_start. destruct (truthy start_date).
  - destruct (to_datetime _ _) as [[b|]|]; simpl; [| |done].
    + intros [= <-] r. rewrite list_elem_of_filter. simpl.
      split; [intros [? ?]; eauto|].
      intros [? Hb]. destruct Hb as (b' & [= <-] & ?); done.
    + intros [= <-] r. rewrite list_elem_of_filter. simpl.
      split; [tauto|]. intros [? Hb]. by destruct Hb as (b' & [=] & ?).
  - intros [= <-] r. split; [by split | tauto].
Qed.

Lemma filter_end_elem end_date df df' :
  filter_end parse_datetime end_date df = Ok df' →
  ∀ r, r ∈ df' ↔
       r ∈ df ∧
       (truthy end_date = true →
        ∃ b, to_datetime parse_datetime end_date = Ok (Some b) ∧
             date (rec r) ≤ b).
Proof.
  unfold filter_end. destruct (truthy end_date).
  - destruct (to_datetime _ _) as [[b|]|]; simpl; [| |done].
    + intros [= <-] r. rewrite list_elem_of_filter. simpl.
      split; [intros [? ?]; eauto|].
      intros [? Hb]. destruct Hb as (b' & [= <-] & ?); done.
    + intros [= <-] r. rewrite list_elem_of_filter. simpl.
      split; [tauto|]. intros [? Hb]. by destruct Hb as (b' & [=] & ?).
  - intros [= <-] r. split; [by split | tauto].
Qed.

Lemma filter_bounds_elem start_date end_date df kept :
  filter_bounds parse_datetime start_date end_date df = Ok kept →
  ∀ r, r ∈ kept ↔
       r ∈ df ∧
       (truthy start_date = true →
        ∃ b, to_datetime parse_datetime start_date = Ok (Some b) ∧
             b ≤ date (rec r)) ∧
       (truthy end_date = true →
        ∃ b, to_datetime parse_datetime end_date = Ok (Some b) ∧
             date (rec r) ≤ b).
Proof.
  unfold filter_bounds.
  destruct (filter_start _ _ _) as [df1|] eqn:H1; simpl; [|done].
  intros H2 r.
  rewrite (filter_end_elem _ _ _ H2), (filter_start_elem _ _ _ H1). tauto.
Qed.

Lemma filter_bounds_exact start_date end_date df bs be :
  (truthy start_date = true →
   to_datetime parse_datetime start_date = Ok bs) →
  (truthy end_date = true → to_datetime parse_datetime end_date = Ok be) →
  filter_bounds parse_datetime start_date end_date df
  = Ok (filter (λ r, (truthy start_date = true → ge_bound bs r) ∧
                     (truthy end_date = true → le_bound be r)) df).
Proof.
  unfold filter_bounds, filter_start, filter_end.
  destruct (truthy start_date), (truthy end_date); intros Hs He;
    rewrite ?(Hs eq_refl), ?(He eq_refl); simpl; f_equal.
  - rewrite list_filter_filter. apply list_filter_iff. intros r. tauto.
  - apply list_filter_iff. intros r. split; [by split|]. intros [H _]. tauto.
  - apply list_filter_iff. intros r. split; [by split|]. intros [_ H]. tauto.
  - symmetry. apply filter_all, Forall_forall. intros r _. by split.
Qed.

Lemma filter_start_sublist start_date df df' :
  filter_start parse_datetime start_date df = Ok df' → df' `sublist_of` df.
Proof.
  unfold filter_start. destruct (truthy start_date); [|by intros [= <-]].
  destruct (to_datetime _ _) as [b|]; simpl; [|done].
  intros [= <-]. apply sublist_filter.
Qed.

Lemma filter_end_sublist end_date df df' :
  filter_end parse_datetime end_date df = Ok df' → df' `sublist_of` df.
Proof.
  unfold filter_end. destruct (truthy end_date); [|by intros [= <-]].
  destruct (to_datetime _ _) as [b|]; simpl; [|done].
  intros [= <-]. apply sublist_filter.
Qed.

Lemma filter_bounds_sublist start_date end_date df kept :
  filter_bounds parse_datetime start_date end_date df = Ok kept →
  kept `sublist_of` df.
Proof.
  unfold filter_bounds.
  destruct (filter_start _ _ _) as [df1|] eqn:H1; simpl; [|done].
  intros H2. etrans; [by eapply filter_end_sublist|].
  by eapply filter_start_sublist.
Qed.

Lemma filter_bounds_falsy_start start_date end_date df :
  truthy start_date = false →
  filter_bounds parse_datetime start_date end_date df
  = filter_bounds parse_datetime PyNone end_date df.
Proof. intros H. unfold filter_bounds, filter_start. by rewrite H. Qed.

Lemma filter_bounds_falsy_end start_date end_date df :
  truthy end_date = false →
  filter_bounds parse_datetime start_date end_date df
  = filter_bounds parse_datetime start_date PyNone df.
Proof. intros H. unfold filter_bounds, filter_end. by rewrite H. Qed.

Lemma compute_daily_sales_read csv_path start_date end_date fs df :
  fs !! csv_path = Some df →
  compute_daily_sales parse_datetime csv_path start_date end_date fs
  = (daily_sales parse_datetime df start_date end_date, fs).
Proof.
  intros H. unfold compute_daily_sales, read_csv. by rewrite H.
Qed.

Lemma compute_daily_sales_state csv_path start_date end_date fs :
  (compute_daily_sales parse_datetime csv_path start_date end_date fs).2 = fs.
Proof. reflexivity. Qed.

Lemma compute_daily_sales_aggregate csv_path start_date end_date fs kept :
  post_filter parse_datetime fs csv_path start_date end_date kept →
  (compute_daily_sales parse_datetime csv_path start_date end_date fs).1
  = aggregate kept.
Proof.
  intros (df & Hdf & Hkept).
  rewrite (compute_daily_sales_read _ _ _ _ _ Hdf). simpl.
  unfold daily_sales. by rewrite Hkept.
Qed.

Lemma returns_inv csv_path start_date end_date fs out :
  returns parse_datetime fs csv_path start_date end_date out →
  ∃ kept, post_filter parse_datetime fs csv_path start_date end_date kept ∧
          aggregate kept = Ok out.
Proof.
  unfold returns, compute_daily_sales, read_csv. simpl.
  destruct (fs !! csv_path) as [df|] eqn:Hdf; simpl; [|done].
  unfold daily_sales.
  destruct (filter_bounds _ _ _ _) as [kept|] eqn:Hkept; simpl; [|done].
  intros Hout. exists kept. split; [by exists df | done].
Qed.

Lemma post_filter_unique csv_path start_date end_date fs kept kept' :
  post_filter parse_datetime fs csv_path start_date end_date kept →
  post_filter parse_datetime fs csv_path start_date end_date kept' →
  kept = kept'.
Proof. intros (df & ? & ?) (df' & ? & ?). congruence. Qed.

Lemma post_filter_line_revenue csv_path start_date end_date fs kept r :
  post_filter parse_datetime fs csv_path start_date end_date kept →
  r ∈ kept → line_revenue r = net_amount (rec r).
Proof.
  intros (df & _ & Hkept) Hr.
  apply (filter_bounds_elem _ _ _ _ Hkept r) in Hr as [Hr _].
  by apply (assign_line_revenue_elem df).
Qed.

End Call.

(** ** Tables of records that carry a date only *)

Lemma filter_unique_lookup {A} (P : A → Prop) `{!∀ x, Decision (P x)}
    (l : list A) i x :
  l !! i = Some x → P x →
  (∀ j y, l !! j = Some y → P y → j = i) →
  filter P l = [x].
Proof.
  intros Hi Hx Huniq.
  rewrite <-(take_drop_middle l i x Hi), filter_app, filter_cons_True by done.
  rewrite !filter_nil_Forall; [done| |].
  - apply Forall_lookup. intros j y Hj Hy.
    rewrite lookup_drop in Hj. apply Huniq in Hj; [lia | done].
  - apply Forall_lookup. intros j y Hj Hy.
    apply lookup_take_Some in Hj as [Hj Hlt].
    apply Huniq in Hj; [lia | done].
Qed.

Section date_only_tables.
Variables (df : list sales_row) (first last : Z) (out : list daily_summary).
Hypothesis Hagg : aggregated df first last out.
Hypothesis Hdates : Forall (λ r, date_only (date (rec r))) df.

Lemma aggregated_first_date_only : date_only first.
Proof using Hagg Hdates.
  destruct Hagg as [[Hin _] _ _ _ _ _].
  apply list_elem_of_fmap in Hin as (r & -> & Hr).
  rewrite Forall_forall in Hdates. by apply Hdates.
Qed.

Lemma aggregated_last_date_only : date_only last.
Proof using Hagg Hdates.
  destruct Hagg as [_ [Hin _] _ _ _ _].
  apply list_elem_of_fmap in Hin as (r & -> & Hr).
  rewrite Forall_forall in Hdates. by apply Hdates.
Qed.

Lemma aggregated_index_date_only row : row ∈ out → date_only (index row).
Proof using Hagg Hdates.
  intros Hrow. apply (date_only_daily_steps first last).
  - apply aggregated_first_date_only.
  - rewrite <-(agg_index _ _ _ _ Hagg). by apply list_elem_of_fmap_2.
Qed.

Lemma aggregated_calendar_days :
  calendar_day ∘ index <$> out
  = seqZ (calendar_day first) (calendar_day last - calendar_day first + 1).
Proof using Hagg Hdates.
  rewrite list_fmap_compose, (agg_index _ _ _ _ Hagg).
  apply calendar_day_daily_steps;
    [apply aggregated_first_date_only | apply aggregated_last_date_only].
Qed.

Lemma aggregated_one_row_per_day : one_row_per_day df out.
Proof using Hagg Hdates.
  exists (calendar_day first), (calendar_day last). split_and!.
  - rewrite (list_fmap_compose (date ∘ rec) calendar_day).
    apply earliest_calendar_day, (agg_earliest _ _ _ _ Hagg).
  - rewrite (list_fmap_compose (date ∘ rec) calendar_day).
    apply latest_calendar_day, (agg_latest _ _ _ _ Hagg).
  - apply aggregated_calendar_days.
  - rewrite <-(length_fmap (calendar_day ∘ index)).
    by rewrite aggregated_calendar_days, length_seqZ.
  - rewrite (agg_index _ _ _ _ Hagg). apply ascending_daily_steps.
Qed.

Lemma aggregated_revenue_by_day :
  (∀ r, r ∈ df → line_revenue r = net_amount (rec r)) →
  revenue_by_day df out.
Proof using Hagg Hdates.
  intros Hnet row Hrow.
  destruct (agg_row _ _ _ _ Hagg row Hrow) as [-> _].
  rewrite rows_at_on_day by auto using aggregated_index_date_only.
  f_equal. apply list_fmap_ext. intros i r Hr. simpl. apply Hnet.
  apply list_elem_of_lookup_2 in Hr.
  by apply list_elem_of_filter in Hr as [_ Hr].
Qed.

Lemma aggregated_transactions_by_day : transactions_by_day df out.
Proof using Hagg Hdates.
  intros row Hrow.
  destruct (agg_row _ _ _ _ Hagg row Hrow) as [_ ->].
  by rewrite rows_at_on_day by auto using aggregated_index_date_only.
Qed.

Lemma aggregated_grouped_by_calendar_day : grouped_by_calendar_day df out.
Proof using Hagg Hdates.
  intros r Hr.
  pose proof aggregated_first_date_only as Hfirst.
  assert (date_only (date (rec r))) as Ht.
  { rewrite Forall_forall in Hdates. by apply Hdates. }
  destruct (agg_earliest _ _ _ _ Hagg) as [_ Hlo].
  destruct (agg_latest _ _ _ _ Hagg) as [_ Hhi].
  rewrite Forall_fmap, Forall_forall in Hlo, Hhi.
  specialize (Hlo r Hr). specialize (Hhi r Hr). simpl in Hlo, Hhi.
  set (t := date (rec r)) in *.
  set (k := calendar_day t - calendar_day first).
  assert (t = first + k * NS_PER_DAY) as Htk.
  { apply date_only_midnight in Hfirst, Ht. unfold midnight in Hfirst, Ht.
    unfold k. rewrite Z.mul_sub_distr_r. lia. }
  assert (0 ≤ k) as Hk0.
  { unfold k. pose proof NS_PER_DAY_pos. nia. }
  assert (k < (last - first) `div` NS_PER_DAY + 1) as Hk1.
  { assert (k ≤ (last - first) `div` NS_PER_DAY); [|lia].
    replace k with ((k * NS_PER_DAY) `div` NS_PER_DAY)
      by (by apply Z.div_mul).
    apply Z.div_le_mono; [apply NS_PER_DAY_pos | lia]. }
  assert ((index <$> out) !! Z.to_nat k = Some t) as Hidx.
  { rewrite (agg_index _ _ _ _ Hagg). unfold daily_steps.
    rewrite list_lookup_fmap, lookup_seqZ_lt by lia. simpl.
    rewrite Z2Nat.id by lia. by rewrite Htk. }
  rewrite list_lookup_fmap in Hidx.
  destruct (out !! Z.to_nat k) as [row|] eqn:Hrow; [|done].
  injection Hidx as Hidx. exists row.
  assert (row ∈ out) as Hin by by eapply list_elem_of_lookup_2.
  split_and!.
  - apply (filter_unique_lookup _ _ (Z.to_nat k)); [done| by rewrite Hidx |].
    intros j row' Hj Hday.
    assert ((index <$> out) !! j = Some (index row')) as Hj'.
    { by rewrite list_lookup_fmap, Hj. }
    rewrite (agg_index _ _ _ _ Hagg) in Hj'.
    apply lookup_daily_steps in Hj'. rewrite Hj', Htk in Hday.
    rewrite !calendar_day_add in Hday. lia.
  - destruct (agg_row _ _ _ _ Hagg row Hin) as [-> _].
    rewrite Hidx. by rewrite rows_at_on_day.
  - destruct (agg_row _ _ _ _ Hagg row Hin) as [_ ->].
    rewrite Hidx. by rewrite rows_at_on_day.
Qed.
End date_only_tables.

(** * The claims *)

Section Claims.

Variable parse_datetime : string → option (option Z).

Lemma returns_aggregated fs csv_path start_date end_date kept out :
  post_filter parse_datetime fs csv_path start_date end_date kept →
  returns parse_datetime fs csv_path start_date end_date out →
  ∃ first last, aggregated kept first last out.
Proof.
  intros Hkept Hout. apply aggregate_aggregated.
  by rewrite <-(compute_daily_sales_aggregate _ _ _ _ _ _ Hkept).
Qed.

Lemma post_filter_returns fs csv_path start_date end_date kept :
  post_filter parse_datetime fs csv_path start_date end_date kept → kept ≠ [] →
  ∃ out, returns parse_datetime fs csv_path start_date end_date out.
Proof.
  intros Hkept Hne. destruct (aggregate_Ok kept Hne) as [out Hout].
  exists out. unfold returns.
  by rewrite (compute_daily_sales_aggregate _ _ _ _ _ _ Hkept).
Qed.

(** C1, as amended.  When the records that remain after the filters are not
    empty and their dates carry no time of day, the call returns a table
    with exactly one row per calendar day of the closed span from the
    earliest to the latest of these dates, in ascending order. *)
Theorem one_row_per_day_of_span fs csv_path start_date end_date kept :
  post_filter parse_datetime fs csv_path start_date end_date kept →
  kept ≠ [] →
  Forall (λ r, date_only (date (rec r))) kept →
  ∃ out, returns parse_datetime fs csv_path start_date end_date out ∧
         one_row_per_day kept out.
Proof.
  intros Hkept Hne Hdates.
  destruct (post_filter_returns _ _ _ _ _ Hkept Hne) as [out Hout].
  exists out. split; [done|].
  destruct (returns_aggregated _ _ _ _ _ _ Hkept Hout) as (s & e & Hagg).
  by eapply aggregated_one_row_per_day.
Qed.

(** C2.  In every table the call returns, the moving average of the row at
    position [i] is defined and is the mean of [daily_revenue] over the
    positions [max 0 (i - 6)], ..., [i]. *)
Theorem moving_avg_7d_trailing_mean fs csv_path start_date end_date out
    (i : nat) row :
  returns parse_datetime fs csv_path start_date end_date out →
  out !! i = Some row →
  moving_avg_7d row
  = Some (mean (slice (Nat.max 0 (i - 6)) i (daily_revenue <$> out))).
Proof.
  intros Hout Hrow.
  destruct (returns_inv _ _ _ _ _ _ Hout) as (kept & Hkept & _).
  destruct (returns_aggregated _ _ _ _ _ _ Hkept Hout) as (s & e & Hagg).
  assert ((moving_avg_7d <$> out) !! i = Some (moving_avg_7d row)) as Hma.
  { by rewrite list_lookup_fmap, Hrow. }
  assert (i < length (daily_revenue <$> out))%nat as Hi.
  { rewrite length_fmap. by eapply lookup_lt_Some. }
  rewrite (agg_moving_avg _ _ _ _ Hagg) in Hma.
  rewrite (lookup_rolling_mean 7 1) in Hma by (done || lia).
  injection Hma as <-.
  rewrite (window_before_slice 7) by lia.
  change (7 - 1)%nat with 6%nat. rewrite Nat.max_0_l.
  unfold calc_mean, mean. simpl fst; simpl snd.
  assert (length (slice (i - 6) i (daily_revenue <$> out)) = Nat.min (S i) 7)
    as ->.
  { unfold slice. rewrite length_take, length_drop. lia. }
  assert (1 ≤ Nat.min (S i) 7)%nat by lia.
  rewrite !bool_decide_eq_true_2 by lia. done.
Qed.

(** C3.  In every table the call returns, the cumulative revenue of the row
    at position [n] is the sum of [daily_revenue] over the positions
    [0], ..., [n]; when no daily revenue is negative, the cumulative revenue
    does not decrease from a row to a later one. *)
Theorem cumulative_revenue_running_sum fs csv_path start_date end_date out :
  returns parse_datetime fs csv_path start_date end_date out →
  (∀ (n : nat) row, out !! n = Some row →
     cumulative_revenue row = sum_Qc (slice 0 n (daily_revenue <$> out))) ∧
  (Forall (λ row, (0 ≤ daily_revenue row)%Qc) out →
   ∀ (n m : nat) a b, (n ≤ m)%nat → out !! n = Some a → out !! m = Some b →
     (cumulative_revenue a ≤ cumulative_revenue b)%Qc).
Proof.
  intros Hout.
  destruct (returns_inv _ _ _ _ _ _ Hout) as (kept & Hkept & _).
  destruct (returns_aggregated _ _ _ _ _ _ Hkept Hout) as (s & e & Hagg).
  assert (Hsum : ∀ (n : nat) row, out !! n = Some row →
            cumulative_revenue row
            = sum_Qc (take (S n) (daily_revenue <$> out))).
  { intros n row Hrow.
    assert ((cumulative_revenue <$> out) !! n = Some (cumulative_revenue row))
      as Hc by by rewrite list_lookup_fmap, Hrow.
    rewrite (agg_cumulative _ _ _ _ Hagg), lookup_cumsum in Hc.
    - by injection Hc as <-.
    - rewrite length_fmap. by eapply lookup_lt_Some. }
  split.
  - intros n row Hrow. rewrite (Hsum n row Hrow).
    unfold slice. by rewrite drop_0, Nat.sub_0_r.
  - intros Hpos n m a b Hnm Ha Hb.
    rewrite (Hsum n a Ha), (Hsum m b Hb).
    apply sum_Qc_take_mono; [|lia]. by apply Forall_fmap.
Qed.

(** C4, as amended.  When the dates of the records that remain after the
    filters carry no time of day, the daily revenue of every row is the sum
    of [quantity * unit_price - discount_applied] over the records dated on
    the day of the row; no sign is checked. *)
Theorem daily_revenue_sums_the_day fs csv_path start_date end_date kept out :
  post_filter parse_datetime fs csv_path start_date end_date kept →
  returns parse_datetime fs csv_path start_date end_date out →
  Forall (λ r, date_only (date (rec r))) kept →
  revenue_by_day kept out.
Proof.
  intros Hkept Hout Hdates.
  destruct (returns_aggregated _ _ _ _ _ _ Hkept Hout) as (s & e & Hagg).
  eapply aggregated_revenue_by_day; [done..|].
  intros r Hr. by eapply post_filter_line_revenue.
Qed.

(** C5, as amended.  When the dates of the records that remain after the
    filters carry no time of day, the transaction count of every row is the
    number of distinct transaction ids among the records dated on the day of
    the row; two line items of one transaction count once. *)
Theorem daily_transactions_counts_distinct fs csv_path start_date end_date
    kept out :
  post_filter parse_datetime fs csv_path start_date end_date kept →
  returns parse_datetime fs csv_path start_date end_date out →
  Forall (λ r, date_only (date (rec r))) kept →
  transactions_by_day kept out ∧
  (∀ row r1 r2, row ∈ out →
     rows_on_day_of (index row) kept = [r1; r2] →
     transaction_id (rec r1) = transaction_id (rec r2) →
     daily_transactions row = 1%nat).
Proof.
  intros Hkept Hout Hdates.
  destruct (returns_aggregated _ _ _ _ _ _ Hkept Hout) as (s & e & Hagg).
  assert (transactions_by_day kept out) as Hcount
    by by eapply aggregated_transactions_by_day.
  split; [done|].
  intros row r1 r2 Hrow Hday Hid. rewrite (Hcount row Hrow), Hday.
  simpl. rewrite Hid. unfold nunique. simpl.
  destruct (decide_rel _ _ _) as [_|Hn]; [done|].
  exfalso. apply Hn, list_elem_of_here.
Qed.

(** C6.  In every table the call returns, a row whose calendar day has no
    record among those that remain after the filters has a daily revenue of
    [0] and a transaction count of [0]. *)
Theorem zero_fill_of_empty_days fs csv_path start_date end_date kept out row :
  post_filter parse_datetime fs csv_path start_date end_date kept →
  returns parse_datetime fs csv_path start_date end_date out →
  row ∈ out →
  rows_on_day_of (index row) kept = [] →
  daily_revenue row = 0%Qc ∧ daily_transactions row = 0%nat.
Proof.
  intros Hkept Hout Hrow Hday.
  destruct (returns_aggregated _ _ _ _ _ _ Hkept Hout) as (s & e & Hagg).
  destruct (agg_row _ _ _ _ Hagg row Hrow) as [-> ->].
  by rewrite (rows_at_nil_on_day _ _ Hday).
Qed.

(** C7, as amended.  When the filters leave no record, the call returns no
    table: it fails in [pd.date_range], on the [NaT] end points of the
    empty index, and the exception is of class [ValueError] and of no
    other name -- the class of the exception of a bound that
    [pd.to_datetime] refuses. *)
Theorem empty_after_filter_fails_in_date_range fs csv_path start_date
    end_date :
  post_filter parse_datetime fs csv_path start_date end_date [] →
  let outcome :=
    (compute_daily_sales parse_datetime csv_path start_date end_date fs).1 in
  outcome = Err DateRangeError ∧
  (∀ out, outcome ≠ Ok out) ∧
  (∀ cls, raises cls outcome ↔ cls = "ValueError"%string) ∧
  exception_class ParseError = exception_class DateRangeError.
Proof.
  intros Hkept. cbv zeta.
  rewrite (compute_daily_sales_aggregate _ _ _ _ _ _ Hkept), aggregate_nil.
  split_and!; [done | done | | done].
  intros cls. split.
  - by intros (e & [= <-] & <-).
  - intros ->. by exists DateRangeError.
Qed.

(** C8, as amended.  No time of day is discarded: the records are grouped by
    the value of [date] as it is, and every row aggregates the records whose
    timestamp is the row's.  When the dates of the records that remain after
    the filters carry no time of day, the records of one calendar date are
    thereby grouped into a single daily row. *)
Theorem records_grouped_by_date_value fs csv_path start_date end_date
    kept out :
  post_filter parse_datetime fs csv_path start_date end_date kept →
  returns parse_datetime fs csv_path start_date end_date out →
  grouped_by_timestamp kept out ∧
  (Forall (λ r, date_only (date (rec r))) kept →
   grouped_by_calendar_day kept out).
Proof.
  intros Hkept Hout.
  destruct (returns_aggregated _ _ _ _ _ _ Hkept Hout) as (s & e & Hagg).
  split.
  - intros row Hrow. apply (agg_row _ _ _ _ Hagg row Hrow).
  - intros Hdates. by eapply aggregated_grouped_by_calendar_day.
Qed.

(** C9, as amended.  A call leaves the file store as it found it, and its
    result is determined by the contents of the file that is read and by
    what [pd.to_datetime] makes of the truthy bounds at the time of the
    call: two calls with the same bounds, made at times at which the
    parser may differ ([parse_datetime] and [parse_datetime']) and on
    stores that may differ, return the same result whenever the file is
    the same and each truthy bound is read alike.  Nothing is asked of a
    falsy bound, of the other strings or of the other files. *)
Theorem result_determined_by_file_and_parsed_bounds parse_datetime' csv_path
    start_date end_date fs fs' :
  let call := compute_daily_sales parse_datetime csv_path start_date end_date in
  let call' :=
    compute_daily_sales parse_datetime' csv_path start_date end_date in
  (call fs).2 = fs ∧
  (fs !! csv_path = fs' !! csv_path →
   (truthy start_date = true →
    to_datetime parse_datetime start_date
    = to_datetime parse_datetime' start_date) →
   (truthy end_date = true →
    to_datetime parse_datetime end_date
    = to_datetime parse_datetime' end_date) →
   (call fs).1 = (call' fs').1).
Proof.
  simpl. split; [done|].
  intros Hfile Hs He. unfold compute_daily_sales, read_csv. simpl.
  rewrite Hfile. destruct (fs' !! csv_path) as [df|]; simpl; [|done].
  unfold daily_sales, filter_bounds, filter_start, filter_end.
  destruct (truthy start_date), (truthy end_date);
    rewrite ?(Hs eq_refl), ?(He eq_refl); done.
Qed.

(** C10.  A falsy bound ([None], [0], the empty string) is a bound that is
    not given: the call behaves as with [None] in its place.  Every truthy
    bound is applied: when [pd.to_datetime] reads the truthy bounds, the
    filters keep the rows of the file that are not earlier than a truthy
    start bound and not later than a truthy end bound -- each as often as
    the file has it, in file order, a row whose date equals a bound
    included and no row passing a bound that is [NaT] -- and these are the
    records that are aggregated. *)
Theorem falsy_bounds_are_skipped csv_path start_date end_date fs :
  let call := compute_daily_sales parse_datetime csv_path in
  truthy PyNone = false ∧
  truthy (PyInt 0) = false ∧
  truthy (PyStr EmptyString) = false ∧
  (truthy start_date = false →
   call start_date end_date fs = call PyNone end_date fs) ∧
  (truthy end_date = false →
   call start_date end_date fs = call start_date PyNone fs) ∧
  (∀ df bs be,
     fs !! csv_path = Some df →
     (truthy start_date = true →
      to_datetime parse_datetime start_date = Ok bs) →
     (truthy end_date = true →
      to_datetime parse_datetime end_date = Ok be) →
     let kept :=
       filter (λ r, (truthy start_date = true → ge_bound bs r) ∧
                    (truthy end_date = true → le_bound be r))
         (assign_line_revenue df) in
     filter_bounds parse_datetime start_date end_date
       (assign_line_revenue df) = Ok kept ∧
     (call start_date end_date fs).1 = aggregate kept) ∧
  (∀ b r, (ge_bound (Some b) r ↔ b ≤ date (rec r)) ∧
          (le_bound (Some b) r ↔ date (rec r) ≤ b) ∧
          ¬ ge_bound None r ∧ ¬ le_bound None r) ∧
  (∀ df kept,
     fs !! csv_path = Some df →
     filter_bounds parse_datetime start_date end_date
       (assign_line_revenue df) = Ok kept →
     (call start_date end_date fs).1 = aggregate kept ∧
     kept `sublist_of` assign_line_revenue df ∧
     ∀ r, r ∈ kept ↔
          r ∈ assign_line_revenue df ∧
          (truthy start_date = true →
           ∃ b, to_datetime parse_datetime start_date = Ok (Some b) ∧
                b ≤ date (rec r)) ∧
          (truthy end_date = true →
           ∃ b, to_datetime parse_datetime end_date = Ok (Some b) ∧
                date (rec r) ≤ b)).
Proof.
  simpl. split_and!; try done.
  - intros Hs. unfold compute_daily_sales, daily_sales.
    destruct (read_csv csv_path fs) as [[df|] fs1]; simpl; [|done].
    by rewrite (filter_bounds_falsy_start _ _ _ _ Hs).
  - intros He. unfold compute_daily_sales, daily_sales.
    destruct (read_csv csv_path fs) as [[df|] fs1]; simpl; [|done].
    by rewrite (filter_bounds_falsy_end _ _ _ _ He).
  - intros df bs be Hdf Hs He.
    pose proof (filter_bounds_exact _ _ _ (assign_line_revenue df) _ _ Hs He)
      as Hkept.
    split; [exact Hkept|].
    apply compute_daily_sales_aggregate. by exists df.
  - intros b r. unfold ge_bound, le_bound. simpl. tauto.
  - intros df kept Hdf Hkept. split_and!.
    + apply compute_daily_sales_aggregate. by exists df.
    + by eapply filter_bounds_sublist.
    + by apply filter_bounds_elem.
Qed.

End Claims.

(** * The claims on sample inputs *)

(** The example of the specification: sales of 20 on 2024-01-01 and of 4 on
    2024-01-03. *)
Lemma table_dates_columns :
  index <$> table_dates = midnight <$> [19723; 19724; 19725] ∧
  (λ row, this (daily_revenue row)) <$> table_dates = [20; 0; 4]%Q ∧
  daily_transactions <$> table_dates = [1; 0; 1]%nat ∧
  (λ row, this (cumulative_revenue row)) <$> table_dates = [20; 20; 24]%Q ∧
  (λ row, this <$> moving_avg_7d row) <$> table_dates
  = [Some 20; Some 10; Some 8]%Q ∧
  day_of_week <$> table_dates = ["Monday"; "Tuesday"; "Wednesday"]%string.
Proof. by vm_compute. Qed.

Lemma post_filter_unbounded df :
  post_filter sample_parser (store df) csv PyNone PyNone
    (assign_line_revenue df).
Proof. exists df. split; [apply lookup_singleton_eq | reflexivity]. Defined.

Lemma one_row_per_day_of_span_witness :
  post_filter sample_parser (store sales_dates) csv PyNone PyNone
    (assign_line_revenue sales_dates) ∧
  assign_line_revenue sales_dates ≠ [] ∧
  Forall (λ r, date_only (date (rec r))) (assign_line_revenue sales_dates) ∧
  ∃ out, returns sample_parser (store sales_dates) csv PyNone PyNone out ∧
         one_row_per_day (assign_line_revenue sales_dates) out.
Proof.
  assert (assign_line_revenue sales_dates ≠ []) as Hne by discriminate.
  assert (Forall (λ r, date_only (date (rec r)))
            (assign_line_revenue sales_dates)) as Hdates
    by (repeat constructor).
  split_and!; [apply post_filter_unbounded | done | done |].
  exact (one_row_per_day_of_span sample_parser _ _ _ _ _
           (post_filter_unbounded sales_dates) Hne Hdates).
Defined.

(** C1, as stated, fails when the dates carry a time of day: for a sale on
    2024-01-01 at 23:00 and one on 2024-01-03 at 01:00 the span has three
    calendar days, and the table has the two rows of 2024-01-01 23:00 and
    2024-01-02 23:00. *)
Lemma one_row_per_day_fails_with_times :
  post_filter sample_parser (store sales_late) csv PyNone PyNone
    (assign_line_revenue sales_late) ∧
  assign_line_revenue sales_late ≠ [] ∧
  returns sample_parser (store sales_late) csv PyNone PyNone table_late ∧
  length table_late = 2%nat ∧
  ¬ one_row_per_day (assign_line_revenue sales_late) table_late.
Proof.
  split_and!; [apply post_filter_unbounded | done | by vm_compute | done |].
  intros (d0 & dn & Hmin & Hmax & _ & Hlen & _).
  assert (d0 = 19723) as ->.
  { eapply earliest_unique; [exact Hmin|].
    apply (bool_decide_unpack _). by vm_compute. }
  assert (dn = 19725) as ->.
  { eapply latest_unique; [exact Hmax|].
    apply (bool_decide_unpack _). by vm_compute. }
  vm_compute in Hlen. discriminate Hlen.
Qed.

Lemma moving_avg_7d_trailing_mean_witness :
  returns sample_parser (store sales_nine_days) csv PyNone PyNone
    table_nine_days ∧
  ∃ row,
    table_nine_days !! 8%nat = Some row ∧
    moving_avg_7d row
    = Some (mean (slice (Nat.max 0 (8 - 6)) 8
                    (daily_revenue <$> table_nine_days))) ∧
    mean (slice (Nat.max 0 (8 - 6)) 8 (daily_revenue <$> table_nine_days))
    = Qc_of_Z 1.
Proof.
  assert (returns sample_parser (store sales_nine_days) csv PyNone PyNone
            table_nine_days) as Hout by (by vm_compute).
  split; [done|]. eexists. split_and!.
  - reflexivity.
  - exact (moving_avg_7d_trailing_mean sample_parser _ _ _ _ _ 8%nat _
             Hout eq_refl).
  - apply Qc_is_canon. reflexivity.
Defined.

Lemma cumulative_revenue_running_sum_witness :
  returns sample_parser (store sales_nine_days) csv PyNone PyNone
    table_nine_days ∧
  Forall (λ row, (0 ≤ daily_revenue row)%Qc) table_nine_days ∧
  ∃ a b,
    table_nine_days !! 1%nat = Some a ∧
    table_nine_days !! 8%nat = Some b ∧
    cumulative_revenue b
    = sum_Qc (slice 0 8 (daily_revenue <$> table_nine_days)) ∧
    cumulative_revenue b = Qc_of_Z 77 ∧
    (cumulative_revenue a ≤ cumulative_revenue b)%Qc.
Proof.
  assert (returns sample_parser (store sales_nine_days) csv PyNone PyNone
            table_nine_days) as Hout by (by vm_compute).
  assert (Forall (λ row, (0 ≤ daily_revenue row)%Qc) table_nine_days)
    as Hpos by (repeat constructor; by vm_compute).
  destruct (cumulative_revenue_running_sum sample_parser _ _ _ _ _ Hout)
    as [Hsum Hmono].
  split_and!; [done..|]. eexists _, _. split_and!.
  - reflexivity.
  - reflexivity.
  - exact (Hsum 8%nat _ eq_refl).
  - apply Qc_is_canon. reflexivity.
  - refine (Hmono Hpos 1%nat 8%nat _ _ _ eq_refl eq_refl). lia.
Defined.

Lemma daily_revenue_sums_the_day_witness :
  post_filter sample_parser (store sales_items) csv PyNone PyNone
    (assign_line_revenue sales_items) ∧
  returns sample_parser (store sales_items) csv PyNone PyNone table_items ∧
  Forall (λ r, date_only (date (rec r))) (assign_line_revenue sales_items) ∧
  revenue_by_day (assign_line_revenue sales_items) table_items ∧
  (λ row, this (daily_revenue row)) <$> table_items = [5%Q].
Proof.
  assert (returns sample_parser (store sales_items) csv PyNone PyNone
            table_items) as Hout by (by vm_compute).
  assert (Forall (λ r, date_only (date (rec r)))
            (assign_line_revenue sales_items)) as Hdates
    by (repeat constructor).
  split_and!; [apply post_filter_unbounded | done | done | | done].
  exact (daily_revenue_sums_the_day sample_parser _ _ _ _ _ _
           (post_filter_unbounded sales_items) Hout Hdates).
Defined.

(** C4, as stated, fails when the dates carry a time of day: of the two
    sales of 2024-01-01, at 10:00 for 5 and at 15:00 for 7, the only row of
    the table carries 5, and the sales of the day sum to 12. *)
Lemma daily_revenue_misses_later_times :
  post_filter sample_parser (store sales_times) csv PyNone PyNone
    (assign_line_revenue sales_times) ∧
  returns sample_parser (store sales_times) csv PyNone PyNone table_times ∧
  ¬ revenue_by_day (assign_line_revenue sales_times) table_times.
Proof.
  split_and!; [apply post_filter_unbounded | by vm_compute |].
  intros Hrev.
  pose proof (Hrev _ (list_elem_of_here _ _)) as H.
  vm_compute in H. discriminate H.
Qed.

Lemma daily_transactions_counts_distinct_witness :
  post_filter sample_parser (store sales_items) csv PyNone PyNone
    (assign_line_revenue sales_items) ∧
  returns sample_parser (store sales_items) csv PyNone PyNone table_items ∧
  Forall (λ r, date_only (date (rec r))) (assign_line_revenue sales_items) ∧
  transactions_by_day (assign_line_revenue sales_items) table_items ∧
  daily_transactions <$> table_items = [2%nat].
Proof.
  assert (returns sample_parser (store sales_items) csv PyNone PyNone
            table_items) as Hout by (by vm_compute).
  assert (Forall (λ r, date_only (date (rec r)))
            (assign_line_revenue sales_items)) as Hdates
    by (repeat constructor).
  split_and!; [apply post_filter_unbounded | done | done | | done].
  exact (proj1 (daily_transactions_counts_distinct sample_parser _ _ _ _ _ _
                  (post_filter_unbounded sales_items) Hout Hdates)).
Defined.

(** C5, as stated, fails when the dates carry a time of day: the two sales
    of 2024-01-01 belong to two transactions, and the only row of the table
    counts one. *)
Lemma daily_transactions_misses_later_times :
  post_filter sample_parser (store sales_times) csv PyNone PyNone
    (assign_line_revenue sales_times) ∧
  returns sample_parser (store sales_times) csv PyNone PyNone table_times ∧
  ¬ transactions_by_day (assign_line_revenue sales_times) table_times.
Proof.
  split_and!; [apply post_filter_unbounded | by vm_compute |].
  intros Hcount.
  pose proof (Hcount _ (list_elem_of_here _ _)) as H.
  vm_compute in H. discriminate H.
Qed.

Lemma zero_fill_of_empty_days_witness :
  post_filter sample_parser (store sales_dates) csv PyNone PyNone
    (assign_line_revenue sales_dates) ∧
  returns sample_parser (store sales_dates) csv PyNone PyNone table_dates ∧
  ∃ row,
    table_dates !! 1%nat = Some row ∧
    rows_on_day_of (index row) (assign_line_revenue sales_dates) = [] ∧
    daily_revenue row = 0%Qc ∧ daily_transactions row = 0%nat.
Proof.
  assert (returns sample_parser (store sales_dates) csv PyNone PyNone
            table_dates) as Hout by (by vm_compute).
  split_and!; [apply post_filter_unbounded | done |].
  eexists. split; [reflexivity|].
  match goal with |- ?A ∧ _ => assert A as Hday by (by vm_compute) end.
  split; [exact Hday|].
  refine (zero_fill_of_empty_days sample_parser _ _ _ _ _ _ _
            (post_filter_unbounded sales_dates) Hout _ Hday).
  by eapply (list_elem_of_lookup_2 _ 1%nat).
Defined.

Lemma empty_after_filter_fails_in_date_range_witness :
  let outcome :=
    (compute_daily_sales sample_parser csv
       (PyStr "2024-01-02") (PyStr "2024-01-02") (store sales_dates)).1 in
  post_filter sample_parser (store sales_dates) csv
    (PyStr "2024-01-02") (PyStr "2024-01-02") [] ∧
  outcome = Err DateRangeError ∧
  (∀ out, outcome ≠ Ok out) ∧
  (∀ cls, raises cls outcome ↔ cls = "ValueError"%string).
Proof.
  intros outcome.
  assert (post_filter sample_parser (store sales_dates) csv
            (PyStr "2024-01-02") (PyStr "2024-01-02") []) as Hkept.
  { exists sales_dates. split; [apply lookup_singleton_eq | by vm_compute]. }
  destruct (empty_after_filter_fails_in_date_range sample_parser _ _ _ _
              Hkept) as (Herr & Hnone & Hcls & _).
  split_and!; [done | exact Herr | exact Hnone | exact Hcls].
Defined.

(** C7, as stated, fails: with both bounds at 2024-01-02, a day without
    sales, the filters leave no record, and the exception that ends the
    call is not an [EmptyDatasetError]. *)
Lemma empty_after_filter_raises_no_error_of_its_own :
  post_filter sample_parser (store sales_dates) csv
    (PyStr "2024-01-02") (PyStr "2024-01-02") [] ∧
  ¬ raises "EmptyDatasetError"
      (compute_daily_sales sample_parser csv
         (PyStr "2024-01-02") (PyStr "2024-01-02") (store sales_dates)).1.
Proof.
  split.
  - exists sales_dates. split; [apply lookup_singleton_eq | by vm_compute].
  - intros (e & He & Hcls). vm_compute in He. injection He as <-.
    discriminate Hcls.
Qed.

Lemma records_grouped_by_date_value_witness :
  post_filter sample_parser (store sales_items) csv PyNone PyNone
    (assign_line_revenue sales_items) ∧
  returns sample_parser (store sales_items) csv PyNone PyNone table_items ∧
  Forall (λ r, date_only (date (rec r))) (assign_line_revenue sales_items) ∧
  grouped_by_timestamp (assign_line_revenue sales_items) table_items ∧
  grouped_by_calendar_day (assign_line_revenue sales_items) table_items.
Proof.
  assert (returns sample_parser (store sales_items) csv PyNone PyNone
            table_items) as Hout by (by vm_compute).
  assert (Forall (λ r, date_only (date (rec r)))
            (assign_line_revenue sales_items)) as Hdates
    by (repeat constructor).
  destruct (records_grouped_by_date_value sample_parser _ _ _ _ _ _
              (post_filter_unbounded sales_items) Hout) as [Hts Hday].
  split_and!; [apply post_filter_unbounded | done | done | done |].
  exact (Hday Hdates).
Defined.

(** C8, as stated, fails: the two sales of 2024-01-01, at 10:00 and at
    15:00, bear the same calendar date, and the row of that day aggregates
    the first of them only (revenue 5 of 12, one transaction of two). *)
Lemma times_of_day_are_not_discarded :
  post_filter sample_parser (store sales_times) csv PyNone PyNone
    (assign_line_revenue sales_times) ∧
  returns sample_parser (store sales_times) csv PyNone PyNone table_times ∧
  ¬ grouped_by_calendar_day (assign_line_revenue sales_times) table_times.
Proof.
  split_and!; [apply post_filter_unbounded | by vm_compute |].
  intros Hgrp.
  destruct (Hgrp _ (list_elem_of_here _ _)) as (row & Hrow & Hrev & _).
  vm_compute in Hrow. injection Hrow as <-.
  vm_compute in Hrev. discriminate Hrev.
Qed.

Lemma result_determined_by_file_and_parsed_bounds_witness :
  let morning := midnight 19720 + 9 * NS_PER_HOUR in
  let evening := midnight 19724 + 21 * NS_PER_HOUR in
  let fs := store sales_dates in
  let fs' := <["campaigns.csv"%string := sales_items]> (store sales_dates) in
  let call now :=
    compute_daily_sales (clock_parser now) csv PyNone (PyStr "2024-01-02") in
  fs !! csv = fs' !! csv ∧
  truthy PyNone = false ∧
  to_datetime (clock_parser morning) (PyStr "2024-01-02")
  = to_datetime (clock_parser evening) (PyStr "2024-01-02") ∧
  (call morning fs).2 = fs ∧
  (call morning fs).1 = (call evening fs').1.
Proof.
  intros morning evening fs fs' call.
  assert (fs !! csv = fs' !! csv) as Hfile by (by vm_compute).
  assert (to_datetime (clock_parser morning) (PyStr "2024-01-02")
          = to_datetime (clock_parser evening) (PyStr "2024-01-02"))
    as Hend by (by vm_compute).
  destruct (result_determined_by_file_and_parsed_bounds
              (clock_parser morning) (clock_parser evening) csv PyNone
              (PyStr "2024-01-02") fs fs') as [Hstate Hsame].
  split_and!; [done | done | done | exact Hstate |].
  apply (Hsame Hfile); [discriminate | intros _; exact Hend].
Defined.

(** C9, as stated, fails: pandas reads the bound "now" from the clock.  On
    the same file and with the same bounds, the call made on 2023-12-29
    returns the three days from 2024-01-01 to 2024-01-03, and the call made
    on 2024-01-02 returns the single day 2024-01-03. *)
Lemma same_bounds_differ_with_the_clock :
  let call now :=
    (compute_daily_sales (clock_parser now) csv (PyStr "now") PyNone
       (store sales_dates)).1 in
  call (midnight 19720) = Ok table_dates ∧
  call (midnight 19724) = Ok table_dates_from_02 ∧
  call (midnight 19720) ≠ call (midnight 19724).
Proof.
  intros call.
  assert (call (midnight 19720) = Ok table_dates) as H1 by (by vm_compute).
  assert (call (midnight 19724) = Ok table_dates_from_02) as H2
    by (by vm_compute).
  split_and!; [done | done |].
  rewrite H1, H2. discriminate.
Qed.

Lemma falsy_bounds_are_skipped_witness :
  let fs := store sales_dates in
  let call := compute_daily_sales sample_parser csv in
  let jan_3 := assign_line_revenue [line 2 (midnight 19725) 1 5 1] in
  (* both bounds falsy *)
  truthy (PyInt 0) = false ∧
  truthy (PyStr EmptyString) = false ∧
  call (PyInt 0) (PyStr EmptyString) fs = call PyNone PyNone fs ∧
  (* both bounds truthy: of the sales of 2024-01-01 and 2024-01-03, the
     second, whose date is the end bound, is kept *)
  fs !! csv = Some sales_dates ∧
  truthy (PyStr "2024-01-02") = true ∧
  truthy (PyStr "2024-01-03") = true ∧
  to_datetime sample_parser (PyStr "2024-01-02")
  = Ok (Some (midnight 19724)) ∧
  to_datetime sample_parser (PyStr "2024-01-03")
  = Ok (Some (midnight 19725)) ∧
  filter_bounds sample_parser (PyStr "2024-01-02") (PyStr "2024-01-03")
    (assign_line_revenue sales_dates) = Ok jan_3 ∧
  (call (PyStr "2024-01-02") (PyStr "2024-01-03") fs).1 = aggregate jan_3 ∧
  (* a start bound that is the date of a record keeps the record *)
  filter_bounds sample_parser (PyStr "2024-01-03") (PyInt 0)
    (assign_line_revenue sales_dates) = Ok jan_3 ∧
  (* a falsy start and a truthy end that is the date of the last record *)
  filter_bounds sample_parser (PyInt 0) (PyStr "2024-01-03")
    (assign_line_revenue sales_dates) = Ok (assign_line_revenue sales_dates) ∧
  (call (PyInt 0) (PyStr "2024-01-03") fs).1
  = aggregate (assign_line_revenue sales_dates) ∧
  call (PyInt 0) (PyStr "2024-01-03") fs
  = call PyNone (PyStr "2024-01-03") fs.
Proof.
  intros fs call jan_3.
  assert (fs !! csv = Some sales_dates) as Hdf by apply lookup_singleton_eq.
  assert (to_datetime sample_parser (PyStr "2024-01-02")
          = Ok (Some (midnight 19724))) as H2 by (by vm_compute).
  assert (to_datetime sample_parser (PyStr "2024-01-03")
          = Ok (Some (midnight 19725))) as H3 by (by vm_compute).
  assert (filter_bounds sample_parser (PyInt 0) (PyStr "2024-01-03")
            (assign_line_revenue sales_dates)
          = Ok (assign_line_revenue sales_dates)) as Hkept by (by vm_compute).
  destruct (falsy_bounds_are_skipped sample_parser csv
              (PyInt 0) (PyStr EmptyString) fs)
    as (_ & _ & _ & Hs & He & _).
  destruct (falsy_bounds_are_skipped sample_parser csv
              (PyStr "2024-01-02") (PyStr "2024-01-03") fs)
    as (_ & _ & _ & _ & _ & Hboth & _).
  destruct (Hboth sales_dates _ _ Hdf (λ _, H2) (λ _, H3))
    as [Hboth_kept Hboth_agg].
  destruct (falsy_bounds_are_skipped sample_parser csv
              (PyStr "2024-01-03") (PyInt 0) fs)
    as (_ & _ & _ & _ & _ & Hstart & _).
  destruct (Hstart sales_dates _ None Hdf (λ _, H3))
    as [Hstart_kept _]; [discriminate|].
  destruct (falsy_bounds_are_skipped sample_parser csv
              (PyInt 0) (PyStr "2024-01-03") fs)
    as (_ & _ & _ & Hs' & _ & _ & _ & Hrows).
  destruct (Hrows _ _ Hdf Hkept) as (Hagg & _ & _).
  split_and!; [done | done | | done | done | done | done | done
              | exact Hboth_kept | exact Hboth_agg | exact Hstart_kept
              | done | exact Hagg | exact (Hs' eq_refl)].
  etrans; [exact (Hs eq_refl)|].
  destruct (falsy_bounds_are_skipped sample_parser csv
              PyNone (PyStr EmptyString) fs)
    as (_ & _ & _ & _ & He' & _).
  exact (He' eq_refl).
Defined.

(** * Further properties of [compute_daily_sales] *)

(** ** Sums over groups *)

Lemma sum_Qc_cons x xs : sum_Qc (x :: xs) = (x + sum_Qc xs)%Qc.
Proof. reflexivity. Qed.

Lemma sum_Qc_filter_or {A} (f : A → Qc) (P Q : A → Prop)
    `{!∀ x, Decision (P x), !∀ x, Decision (Q x)} (l : list A) :
  (∀ x, P x → Q x → False) →
  sum_Qc (f <$> filter (λ x, P x ∨ Q x) l)
  = (sum_Qc (f <$> filter P l) + sum_Qc (f <$> filter Q l))%Qc.
Proof.
  intros Hdisj. induction l as [|x l IH].
  { simpl. by rewrite Qcplus_0_l. }
  rewrite !filter_cons.
  destruct (decide (P x ∨ Q x)) as [Hor|Hor].
  - destruct (decide (P x)) as [HP|HP], (decide (Q x)) as [HQ|HQ];
      [destruct (Hdisj x HP HQ) | | | tauto];
      rewrite !fmap_cons; simpl; rewrite IH; ring.
  - rewrite !decide_False by tauto. done.
Qed.

(** The totals of the groups of pairwise distinct keys add up to the total
    of the rows that have one of these keys. *)
Lemma sum_Qc_rows_at (f : sales_row → Qc) (ks : list Z) df :
  NoDup ks →
  sum_Qc ((λ t, sum_Qc (f <$> rows_at t df)) <$> ks)
  = sum_Qc (f <$> filter (λ r, date (rec r) ∈ ks) df).
Proof.
  induction 1 as [|k ks Hk _ IH].
  - rewrite filter_nil_Forall; [done|].
    apply Forall_forall. intros r _. apply not_elem_of_nil.
  - rewrite fmap_cons, sum_Qc_cons, IH. unfold rows_at.
    rewrite <-(sum_Qc_filter_or f (λ r, date (rec r) = k)
                 (λ r, date (rec r) ∈ ks)).
    + f_equal. f_equal. apply list_filter_iff. intros r.
      rewrite elem_of_cons. done.
    + intros r <- Hin. done.
Qed.

Lemma NoDup_daily_steps s e : NoDup (daily_steps s e).
Proof.
  apply NoDup_alt. intros i j t Hi Hj.
  destruct (Nat.lt_trichotomy i j) as [Hlt|[->|Hlt]]; [|done|].
  - pose proof (ascending_daily_steps s e i j t t Hlt Hi Hj). lia.
  - pose proof (ascending_daily_steps s e j i t t Hlt Hj Hi). lia.
Qed.

(** The timestamps of the daily index are those between its end points that
    have the time of day of the first. *)
Lemma elem_of_daily_steps s e t :
  t ∈ daily_steps s e ↔
  s ≤ t ∧ t ≤ e ∧ time_of_day t = time_of_day s.
Proof.
  pose proof NS_PER_DAY_pos as Hpos.
  unfold daily_steps, time_of_day. rewrite list_elem_of_fmap. split.
  - intros (k & -> & Hk). apply elem_of_seqZ in Hk.
    split_and!; [nia| |by rewrite Z.mod_add by lia].
    assert (k * NS_PER_DAY ≤ e - s); [|lia].
    assert (k ≤ (e - s) `div` NS_PER_DAY) as Hle by lia.
    pose proof (Z.mul_div_le (e - s) NS_PER_DAY Hpos). nia.
  - intros (Hs & He & Hmod).
    exists ((t - s) `div` NS_PER_DAY). split.
    + pose proof (Z.div_mod t NS_PER_DAY).
      pose proof (Z.div_mod s NS_PER_DAY).
      assert (t - s = (t `div` NS_PER_DAY - s `div` NS_PER_DAY) * NS_PER_DAY)
        as Hts by lia.
      rewrite Hts, Z.div_mul by lia. lia.
    + apply elem_of_seqZ. split.
      * apply Z.div_pos; lia.
      * assert ((t - s) `div` NS_PER_DAY ≤ (e - s) `div` NS_PER_DAY); [|lia].
        apply Z.div_le_mono; lia.
Qed.

Lemma length_remove_dups_pos (l : list Z) :
  l ≠ [] → (0 < length (remove_dups l))%nat.
Proof.
  destruct l as [|x l]; [done|]. intros _.
  assert (x ∈ remove_dups (x :: l)) as Hin.
  { apply elem_of_remove_dups, list_elem_of_here. }
  destruct (remove_dups (x :: l)); [by apply elem_of_nil in Hin | simpl; lia].
Qed.

Lemma length_remove_dups_le (l : list Z) :
  (length (remove_dups l) ≤ length l)%nat.
Proof.
  induction l as [|x l IH]; simpl; [done|].
  destruct (decide_rel _ _ _); simpl; lia.
Qed.

Lemma earliest_le_latest first last ds :
  earliest first ds → latest last ds → first ≤ last.
Proof.
  intros [Hin _] [_ Hall]. rewrite Forall_forall in Hall. by apply Hall.
Qed.

Lemma aggregated_lookup df first last out (k : nat) row :
  aggregated df first last out → out !! k = Some row →
  index row = first + Z.of_nat k * NS_PER_DAY.
Proof.
  intros Hagg Hrow. apply (lookup_daily_steps first last k).
  by rewrite <-(agg_index _ _ _ _ Hagg), list_lookup_fmap, Hrow.
Qed.

Lemma aggregated_length df first last out :
  aggregated df first last out →
  length out = Z.to_nat ((last - first) `div` NS_PER_DAY + 1).
Proof.
  intros Hagg.
  by rewrite <-(length_fmap index), (agg_index _ _ _ _ Hagg),
    length_daily_steps.
Qed.

Lemma aggregated_head df first last out :
  aggregated df first last out →
  ∃ row, out !! 0%nat = Some row ∧ index row = first.
Proof.
  intros Hagg.
  pose proof (earliest_le_latest _ _ _ (agg_earliest _ _ _ _ Hagg)
                (agg_latest _ _ _ _ Hagg)) as Hle.
  destruct (lookup_lt_is_Some_2 out 0) as [row Hrow].
  { rewrite (aggregated_length _ _ _ _ Hagg).
    pose proof (Z.div_pos (last - first) NS_PER_DAY). pose proof NS_PER_DAY_pos.
    lia. }
  exists row. split; [done|].
  rewrite (aggregated_lookup _ _ _ _ _ _ Hagg Hrow). lia.
Qed.

Lemma rows_at_earliest first df :
  earliest first (date ∘ rec <$> df) → rows_at first df ≠ [].
Proof.
  intros [Hin _] Hnil.
  apply list_elem_of_fmap in Hin as (r & Hr & Hin).
  eapply (filter_nil_not_elem_of _ _ r Hnil); [|done]. by simpl.
Qed.

Lemma aggregated_revenue_total df first last out :
  aggregated df first last out →
  sum_Qc (daily_revenue <$> out)
  = sum_Qc (line_revenue
              <$> filter (λ r, time_of_day (date (rec r)) = time_of_day first)
                    df).
Proof.
  intros Hagg.
  assert (daily_revenue <$> out
          = (λ t, sum_Qc (line_revenue <$> rows_at t df)) <$> (index <$> out))
    as ->.
  { rewrite <-list_fmap_compose. apply list_fmap_ext. intros i row Hrow.
    simpl. apply (agg_row _ _ _ _ Hagg).
    by eapply list_elem_of_lookup_2. }
  rewrite (agg_index _ _ _ _ Hagg), sum_Qc_rows_at by apply NoDup_daily_steps.
  f_equal. f_equal. apply filter_ext_in. intros r Hr.
  rewrite elem_of_daily_steps.
  destruct (agg_earliest _ _ _ _ Hagg) as [_ Hlo].
  destruct (agg_latest _ _ _ _ Hagg) as [_ Hhi].
  rewrite Forall_fmap, Forall_forall in Hlo, Hhi.
  specialize (Hlo r Hr). specialize (Hhi r Hr). simpl in Hlo, Hhi. tauto.
Qed.

Section Further.

Variable parse_datetime : string → option (option Z).

(** X1.  Whatever the times of day, the rows are one day apart from the
    earliest timestamp that remains after the filters: row [k] is at that
    timestamp plus [k] days and carries its time of day, and the number of
    rows is the number of whole days up to the latest timestamp, plus one. *)
Theorem rows_step_from_earliest fs csv_path start_date end_date kept out :
  post_filter parse_datetime fs csv_path start_date end_date kept →
  returns parse_datetime fs csv_path start_date end_date out →
  ∃ tmin tmax,
    earliest tmin (date ∘ rec <$> kept) ∧
    latest tmax (date ∘ rec <$> kept) ∧
    length out = Z.to_nat ((tmax - tmin) `div` NS_PER_DAY + 1) ∧
    ∀ (k : nat) row, out !! k = Some row →
      index row = tmin + Z.of_nat k * NS_PER_DAY ∧
      index row ≤ tmax ∧
      time_of_day (index row) = time_of_day tmin.
Proof.
  intros Hkept Hout.
  destruct (returns_aggregated _ _ _ _ _ _ _ Hkept Hout)
    as (tmin & tmax & Hagg).
  exists tmin, tmax. split_and!.
  - apply (agg_earliest _ _ _ _ Hagg).
  - apply (agg_latest _ _ _ _ Hagg).
  - by eapply aggregated_length.
  - intros k row Hrow.
    assert (index row ∈ daily_steps tmin tmax) as Hin.
    { rewrite <-(agg_index _ _ _ _ Hagg). apply list_elem_of_fmap_2.
      by eapply list_elem_of_lookup_2. }
    apply elem_of_daily_steps in Hin as (_ & Hle & Htod).
    split_and!; [by eapply aggregated_lookup | done | done].
Qed.

(** X2.  The table is never empty and never starts with a filled-in day: its
    first row is at the earliest timestamp that remains after the filters
    and counts at least one transaction.  When the dates carry no time of
    day, the same holds of the last row and the latest date. *)
Theorem first_row_has_sales fs csv_path start_date end_date kept out :
  post_filter parse_datetime fs csv_path start_date end_date kept →
  returns parse_datetime fs csv_path start_date end_date out →
  (∃ row, head out = Some row ∧
          earliest (index row) (date ∘ rec <$> kept) ∧
          (1 ≤ daily_transactions row)%nat) ∧
  (Forall (λ r, date_only (date (rec r))) kept →
   ∃ row, last out = Some row ∧
          latest (index row) (date ∘ rec <$> kept) ∧
          (1 ≤ daily_transactions row)%nat).
Proof.
  intros Hkept Hout.
  destruct (returns_aggregated _ _ _ _ _ _ _ Hkept Hout)
    as (tmin & tmax & Hagg).
  pose proof (agg_earliest _ _ _ _ Hagg) as Hfirst.
  pose proof (agg_latest _ _ _ _ Hagg) as Hlast.
  assert (Hcount : ∀ row t, row ∈ out → index row = t →
            t ∈ date ∘ rec <$> kept → (1 ≤ daily_transactions row)%nat).
  { intros row t Hrow Ht Hin.
    destruct (agg_row _ _ _ _ Hagg row Hrow) as [_ ->]. rewrite Ht.
    apply length_remove_dups_pos. intros Hnil.
    apply fmap_nil_inv in Hnil.
    apply list_elem_of_fmap in Hin as (r & Hr & Hin).
    eapply (filter_nil_not_elem_of _ _ r Hnil); [|done]. by simpl. }
  split.
  - destruct (aggregated_head _ _ _ _ Hagg) as (row & Hrow & Hidx).
    exists row. rewrite head_lookup. split_and!; [done | by rewrite Hidx |].
    apply (Hcount row tmin); [by eapply list_elem_of_lookup_2 | done |].
    apply Hfirst.
  - intros Hdates.
    assert (tmax ∈ daily_steps tmin tmax) as Hin.
    { apply elem_of_daily_steps. split_and!.
      - by eapply earliest_le_latest.
      - done.
      - rewrite (aggregated_last_date_only _ _ _ _ Hagg Hdates).
        by rewrite (aggregated_first_date_only _ _ _ _ Hagg Hdates). }
    rewrite <-(agg_index _ _ _ _ Hagg) in Hin.
    apply list_elem_of_fmap in Hin as (row & Hidx & Hrow).
    apply list_elem_of_lookup in Hrow as [k Hk].
    exists row. split_and!.
    + rewrite last_lookup.
      pose proof (aggregated_lookup _ _ _ _ _ _ Hagg Hk) as Hik.
      pose proof (aggregated_length _ _ _ _ Hagg) as Hlen.
      pose proof (lookup_lt_Some _ _ _ Hk) as Hlt.
      assert (Z.of_nat k = (tmax - tmin) `div` NS_PER_DAY) as Hkn.
      { rewrite Hidx, Hik.
        replace (tmin + Z.of_nat k * NS_PER_DAY - tmin)
          with (Z.of_nat k * NS_PER_DAY) by lia.
        rewrite Z.div_mul; [done | pose proof NS_PER_DAY_pos; lia]. }
      replace (pred (length out)) with k by lia. done.
    + by rewrite <-Hidx.
    + apply (Hcount row tmax); [by eapply list_elem_of_lookup_2 | done |].
      apply Hlast.
Qed.

(** X3.  A row without transactions has no revenue, and a row counts at
    most as many transactions as there are records at its timestamp. *)
Theorem no_transactions_no_revenue fs csv_path start_date end_date kept out
    row :
  post_filter parse_datetime fs csv_path start_date end_date kept →
  returns parse_datetime fs csv_path start_date end_date out →
  row ∈ out →
  (daily_transactions row = 0%nat → daily_revenue row = 0%Qc) ∧
  (daily_transactions row ≤ length (rows_at (index row) kept))%nat.
Proof.
  intros Hkept Hout Hrow.
  destruct (returns_aggregated _ _ _ _ _ _ _ Hkept Hout)
    as (tmin & tmax & Hagg).
  destruct (agg_row _ _ _ _ Hagg row Hrow) as [-> ->]. split.
  - intros Hzero.
    destruct (rows_at (index row) kept) as [|r rs]; [done|].
    pose proof (length_remove_dups_pos
                  (transaction_id ∘ rec <$> r :: rs)) as Hpos.
    unfold nunique in Hzero. rewrite Hzero in Hpos.
    exfalso. apply (Nat.lt_irrefl 0), Hpos. done.
  - unfold nunique.
    etrans; [apply length_remove_dups_le|]. by rewrite length_fmap.
Qed.

Lemma aggregated_last_cumulative df tmin tmax out row :
  aggregated df tmin tmax out → last out = Some row →
  cumulative_revenue row = sum_Qc (daily_revenue <$> out).
Proof.
  intros Hagg Hlast. rewrite last_lookup in Hlast.
  assert ((cumulative_revenue <$> out) !! pred (length out)
          = Some (cumulative_revenue row)) as Hc
    by by rewrite list_lookup_fmap, Hlast.
  apply lookup_lt_Some in Hlast as Hlen.
  rewrite (agg_cumulative _ _ _ _ Hagg), lookup_cumsum in Hc
    by (rewrite length_fmap; lia).
  injection Hc as <-. f_equal. apply take_ge. rewrite length_fmap. lia.
Qed.

Lemma aggregated_revenue_conserved df tmin tmax out :
  aggregated df tmin tmax out →
  Forall (λ r, date_only (date (rec r))) df →
  sum_Qc (daily_revenue <$> out) = sum_Qc (line_revenue <$> df).
Proof.
  intros Hagg Hdates.
  rewrite (aggregated_revenue_total _ _ _ _ Hagg). do 2 f_equal.
  pose proof (aggregated_first_date_only _ _ _ _ Hagg Hdates) as Hmin.
  apply filter_all, Forall_forall. intros r Hr.
  rewrite Forall_forall in Hdates. pose proof (Hdates r Hr) as Hr0.
  unfold date_only in *. by rewrite Hr0, Hmin.
Qed.

Lemma post_filter_net_amounts fs csv_path start_date end_date kept
    (P : sales_row → Prop) `{!∀ r, Decision (P r)} :
  post_filter parse_datetime fs csv_path start_date end_date kept →
  sum_Qc (line_revenue <$> filter P kept)
  = sum_Qc (net_amount ∘ rec <$> filter P kept).
Proof.
  intros Hkept. f_equal. apply list_fmap_ext. intros i r Hr. simpl.
  apply (post_filter_line_revenue _ _ _ _ _ _ _ Hkept).
  apply list_elem_of_lookup_2 in Hr.
  by apply list_elem_of_filter in Hr as [_ Hr].
Qed.

(** X4.  The daily revenues of the table add up to the revenue of the
    records whose time of day is that of the earliest record, and the last
    cumulative revenue is that total; the revenue of the other records is in
    no row. *)
Theorem revenue_of_the_daily_grid fs csv_path start_date end_date kept out :
  post_filter parse_datetime fs csv_path start_date end_date kept →
  returns parse_datetime fs csv_path start_date end_date out →
  ∃ tmin,
    earliest tmin (date ∘ rec <$> kept) ∧
    sum_Qc (daily_revenue <$> out)
    = sum_Qc (net_amount ∘ rec
                <$> filter (λ r, time_of_day (date (rec r))
                                 = time_of_day tmin) kept) ∧
    ∀ row, last out = Some row →
      cumulative_revenue row = sum_Qc (daily_revenue <$> out).
Proof.
  intros Hkept Hout.
  destruct (returns_aggregated _ _ _ _ _ _ _ Hkept Hout)
    as (tmin & tmax & Hagg).
  exists tmin. split_and!.
  - apply (agg_earliest _ _ _ _ Hagg).
  - rewrite (aggregated_revenue_total _ _ _ _ Hagg).
    by eapply post_filter_net_amounts.
  - intros row Hlast. by eapply aggregated_last_cumulative.
Qed.

(** X5.  When the dates that remain after the filters carry no time of day,
    no revenue is lost: the daily revenues add up to the net amount of all
    these records, and so does the last cumulative revenue. *)
Theorem revenue_is_conserved fs csv_path start_date end_date kept out :
  post_filter parse_datetime fs csv_path start_date end_date kept →
  returns parse_datetime fs csv_path start_date end_date out →
  Forall (λ r, date_only (date (rec r))) kept →
  sum_Qc (daily_revenue <$> out) = sum_Qc (net_amount ∘ rec <$> kept) ∧
  ∀ row, last out = Some row →
    cumulative_revenue row = sum_Qc (net_amount ∘ rec <$> kept).
Proof.
  intros Hkept Hout Hdates.
  destruct (returns_aggregated _ _ _ _ _ _ _ Hkept Hout)
    as (tmin & tmax & Hagg).
  assert (sum_Qc (daily_revenue <$> out)
          = sum_Qc (net_amount ∘ rec <$> kept)) as Htotal.
  { rewrite (aggregated_revenue_conserved _ _ _ _ Hagg Hdates).
    f_equal. apply list_fmap_ext. intros i r Hr. simpl.
    apply (post_filter_line_revenue _ _ _ _ _ _ _ Hkept).
    by eapply list_elem_of_lookup_2. }
  split; [done|]. intros row Hrow.
  by rewrite (aggregated_last_cumulative _ _ _ _ _ Hagg Hrow).
Qed.

(** ** The two derived columns *)

Lemma aggregated_moving_avg_lookup df tmin tmax out (i : nat) row :
  aggregated df tmin tmax out → out !! i = Some row →
  moving_avg_7d row
  = Some (sum_Qc (window_before 7 (daily_revenue <$> out) (S i))
          / Qc_of_Z (Z.of_nat (Nat.min (S i) 7)))%Qc.
Proof.
  intros Hagg Hrow.
  assert ((moving_avg_7d <$> out) !! i = Some (moving_avg_7d row)) as Hma
    by by rewrite list_lookup_fmap, Hrow.
  rewrite (agg_moving_avg _ _ _ _ Hagg) in Hma.
  rewrite (lookup_rolling_mean 7 1) in Hma; [|lia|].
  - injection Hma as <-. unfold calc_mean. simpl fst; simpl snd.
    rewrite !bool_decide_eq_true_2 by lia. done.
  - rewrite length_fmap. by eapply lookup_lt_Some.
Qed.

Lemma aggregated_cumulative_lookup df tmin tmax out (i : nat) row :
  aggregated df tmin tmax out → out !! i = Some row →
  cumulative_revenue row = sum_Qc (take (S i) (daily_revenue <$> out)).
Proof.
  intros Hagg Hrow.
  assert ((cumulative_revenue <$> out) !! i = Some (cumulative_revenue row))
    as Hc by by rewrite list_lookup_fmap, Hrow.
  rewrite (agg_cumulative _ _ _ _ Hagg), lookup_cumsum in Hc.
  - by injection Hc as <-.
  - rewrite length_fmap. by eapply lookup_lt_Some.
Qed.

(** X6.  For amounts as exact numbers (the rounding of floating-point
    sums apart), the moving average can be read off the cumulative
    revenue: in the first seven rows it is the cumulative revenue divided
    by the number of rows so far, and from the eighth row on it is a
    seventh of the growth of the cumulative revenue over the last seven
    rows. *)
Theorem moving_avg_from_cumulative fs csv_path start_date end_date out
    (i : nat) row :
  returns parse_datetime fs csv_path start_date end_date out →
  out !! i = Some row →
  ((i < 7)%nat →
   moving_avg_7d row
   = Some (cumulative_revenue row / Qc_of_Z (Z.of_nat (S i)))%Qc) ∧
  (∀ prev, (7 ≤ i)%nat → out !! (i - 7)%nat = Some prev →
   moving_avg_7d row
   = Some ((cumulative_revenue row - cumulative_revenue prev)
           / Qc_of_Z 7)%Qc).
Proof.
  intros Hout Hrow.
  destruct (returns_inv _ _ _ _ _ _ Hout) as (kept & Hkept & _).
  destruct (returns_aggregated _ _ _ _ _ _ _ Hkept Hout)
    as (tmin & tmax & Hagg).
  rewrite (aggregated_moving_avg_lookup _ _ _ _ _ _ Hagg Hrow).
  rewrite (aggregated_cumulative_lookup _ _ _ _ _ _ Hagg Hrow).
  unfold window_before. split.
  - intros Hi. rewrite Nat.min_l by lia.
    replace (S i - 7)%nat with 0%nat by lia. by rewrite drop_0.
  - intros prev Hi Hprev.
    rewrite (aggregated_cumulative_lookup _ _ _ _ _ _ Hagg Hprev).
    rewrite Nat.min_r by lia.
    replace (S (i - 7)) with (S i - 7)%nat by lia.
    replace (take (S i) (daily_revenue <$> out))
      with (take (S i - 7) (daily_revenue <$> out)
            ++ take 7 (drop (S i - 7) (daily_revenue <$> out)))
      by (rewrite take_take_drop; f_equal; lia).
    rewrite sum_Qc_app. do 2 f_equal. ring.
Qed.

Lemma sum_Qc_bounds lo hi xs :
  Forall (λ x, (lo ≤ x ∧ x ≤ hi)%Qc) xs →
  (lo * Qc_of_Z (Z.of_nat (length xs)) ≤ sum_Qc xs
   ∧ sum_Qc xs ≤ hi * Qc_of_Z (Z.of_nat (length xs)))%Qc.
Proof.
  induction 1 as [|x xs [Hlo Hhi] _ [IHlo IHhi]].
  - change (Z.of_nat (length (@nil Qc))) with 0.
    change (sum_Qc []) with 0%Qc.
    rewrite Z2Qc_inj_0, !Qcmult_0_r. split; apply Qcle_refl.
  - rewrite sum_Qc_cons. simpl length.
    rewrite Nat2Z.inj_succ, <-Z.add_1_l, Z2Qc_inj_add, Z2Qc_inj_1.
    rewrite !Qcmult_plus_distr_r, !Qcmult_1_r.
    split; by apply Qcplus_le_compat.
Qed.

Lemma Qcdiv_bounds lo hi s (n : nat) :
  (0 < n)%nat →
  (lo * Qc_of_Z (Z.of_nat n) ≤ s ∧ s ≤ hi * Qc_of_Z (Z.of_nat n))%Qc →
  (lo ≤ s / Qc_of_Z (Z.of_nat n) ∧ s / Qc_of_Z (Z.of_nat n) ≤ hi)%Qc.
Proof.
  intros Hn [Hlo Hhi].
  assert (0 < Qc_of_Z (Z.of_nat n))%Qc as Hpos.
  { rewrite <-Z2Qc_inj_0. apply (proj1 (Z2Qc_inj_lt 0 (Z.of_nat n))). lia. }
  assert (Qc_of_Z (Z.of_nat n) ≠ 0%Qc) as Hne.
  { intros Heq. rewrite Heq in Hpos. by apply Qclt_not_eq in Hpos. }
  assert ((s / Qc_of_Z (Z.of_nat n)) * Qc_of_Z (Z.of_nat n) = s)%Qc as Hs.
  { rewrite Qcmult_comm. by apply Qcmult_div_r. }
  split; apply (Qcmult_lt_0_le_reg_r _ _ _ Hpos); by rewrite Hs.
Qed.

(** X7.  For amounts as exact numbers (the rounding of floating-point
    sums apart), the moving average of every row lies between any two
    bounds that the daily revenues of the table respect; it is not
    negative when no daily revenue is. *)
Theorem moving_avg_within_revenue_bounds fs csv_path start_date end_date out
    lo hi row :
  returns parse_datetime fs csv_path start_date end_date out →
  Forall (λ r, (lo ≤ daily_revenue r ∧ daily_revenue r ≤ hi)%Qc) out →
  row ∈ out →
  ∃ avg, moving_avg_7d row = Some avg ∧ (lo ≤ avg ∧ avg ≤ hi)%Qc.
Proof.
  intros Hout Hbounds Hrow.
  destruct (returns_inv _ _ _ _ _ _ Hout) as (kept & Hkept & _).
  destruct (returns_aggregated _ _ _ _ _ _ _ Hkept Hout)
    as (tmin & tmax & Hagg).
  apply list_elem_of_lookup in Hrow as [i Hi].
  rewrite (aggregated_moving_avg_lookup _ _ _ _ _ _ Hagg Hi).
  eexists. split; [done|].
  pose proof (lookup_lt_Some _ _ _ Hi) as Hlen.
  assert (length (window_before 7 (daily_revenue <$> out) (S i))
          = Nat.min (S i) 7) as Hwin.
  { apply length_window_before; rewrite ?length_fmap; lia. }
  apply Qcdiv_bounds; [lia|]. rewrite <-Hwin.
  apply sum_Qc_bounds. unfold window_before.
  by apply Forall_take, Forall_drop, Forall_fmap.
Qed.

(** ** The day names *)

Lemma add_columns_day_of_week g row :
  row ∈ add_columns g → day_of_week row = day_name (index row).
Proof.
  unfold add_columns. intros [i Hi]%list_elem_of_lookup.
  apply lookup_zip_with_Some in Hi as (r & cols & -> & _ & _). done.
Qed.

Lemma aggregate_day_of_week df out row :
  aggregate df = Ok out → row ∈ out →
  day_of_week row = day_name (index row).
Proof.
  unfold aggregate. destruct (date_range _ _) as [idx|]; simpl; [|done].
  intros [= <-]. apply add_columns_day_of_week.
Qed.

Lemma NoDup_day_names : NoDup day_names.
Proof. by apply (bool_decide_unpack _). Qed.

(** X8.  The day names of the table follow the week: two rows bear the same
    day name exactly when their positions differ by a multiple of seven. *)
Theorem day_of_week_repeats_weekly fs csv_path start_date end_date out
    (i j : nat) a b :
  returns parse_datetime fs csv_path start_date end_date out →
  out !! i = Some a → out !! j = Some b →
  day_of_week a = day_of_week b ↔ (i mod 7 = j mod 7)%nat.
Proof.
  intros Hout Ha Hb.
  destruct (returns_inv _ _ _ _ _ _ Hout) as (kept & Hkept & Hagg0).
  destruct (returns_aggregated _ _ _ _ _ _ _ Hkept Hout)
    as (tmin & tmax & Hagg).
  rewrite (aggregate_day_of_week _ _ a Hagg0)
    by by eapply list_elem_of_lookup_2.
  rewrite (aggregate_day_of_week _ _ b Hagg0)
    by by eapply list_elem_of_lookup_2.
  rewrite (aggregated_lookup _ _ _ _ _ _ Hagg Ha).
  rewrite (aggregated_lookup _ _ _ _ _ _ Hagg Hb).
  unfold day_name. rewrite !calendar_day_add.
  set (d := calendar_day tmin).
  assert (Hlt : ∀ k : nat,
            (Z.to_nat ((d + Z.of_nat k + 3) `mod` 7) < length day_names)%nat).
  { intros k. simpl. pose proof (Z.mod_pos_bound (d + Z.of_nat k + 3) 7).
    lia. }
  destruct (lookup_lt_is_Some_2 _ _ (Hlt i)) as [x Hx].
  destruct (lookup_lt_is_Some_2 _ _ (Hlt j)) as [y Hy].
  rewrite Hx, Hy. simpl.
  assert ((i mod 7 = j mod 7)%nat
          ↔ Z.to_nat ((d + Z.of_nat i + 3) `mod` 7)
            = Z.to_nat ((d + Z.of_nat j + 3) `mod` 7)) as ->.
  { pose proof (Z.mod_pos_bound (d + Z.of_nat i + 3) 7).
    pose proof (Z.mod_pos_bound (d + Z.of_nat j + 3) 7).
    pose proof (Nat.mod_upper_bound i 7).
    pose proof (Nat.mod_upper_bound j 7).
    pose proof (Nat.div_mod_eq i 7). pose proof (Nat.div_mod_eq j 7).
    pose proof (Z.div_mod (d + Z.of_nat i + 3) 7).
    pose proof (Z.div_mod (d + Z.of_nat j + 3) 7).
    lia. }
  split.
  - intros <-. eapply NoDup_lookup; [apply NoDup_day_names | done..].
  - intros Heq. rewrite Heq in Hx. congruence.
Qed.

(** ** Failures *)

Lemma to_datetime_Err v e : to_datetime parse_datetime v = Err e → e = ParseError.
Proof.
  destruct v as [|n|s|t]; simpl; try done.
  - repeat case_bool_decide; [done..|]. by intros [= <-].
  - destruct (parse_datetime s); [done|]. by intros [= <-].
Qed.

Lemma filter_bounds_Err start_date end_date df e :
  filter_bounds parse_datetime start_date end_date df = Err e ↔
  e = ParseError ∧
  ((truthy start_date = true ∧
    to_datetime parse_datetime start_date = Err ParseError) ∨
   (truthy end_date = true ∧
    to_datetime parse_datetime end_date = Err ParseError)).
Proof.
  unfold filter_bounds, filter_start, filter_end.
  destruct (truthy start_date), (truthy end_date);
    destruct (to_datetime parse_datetime start_date) as [b1|e1] eqn:H1;
    destruct (to_datetime parse_datetime end_date) as [b2|e2] eqn:H2;
    simpl;
    try (apply to_datetime_Err in H1 as ->);
    try (apply to_datetime_Err in H2 as ->);
    (split; [intros [= <-] || intros [=] | intros [-> [[? ?]|[? ?]]]]);
    try done; auto.
Qed.

Lemma aggregate_Err df e :
  aggregate df = Err e ↔ e = DateRangeError ∧ df = [].
Proof.
  split.
  - destruct df as [|r df].
    + rewrite aggregate_nil. by intros [= <-].
    + destruct (aggregate_Ok (r :: df)) as [out ->]; done.
  - intros [-> ->]. apply aggregate_nil.
Qed.

(** X9.  What the call does is decided by three questions.  It fails with
    [ReadError] exactly when the file cannot be read; with [ParseError]
    exactly when the file can be read and a truthy bound is rejected by the
    parser; with [DateRangeError] exactly when the filters leave no
    record; and it returns a table exactly when they leave at least one. *)
Theorem outcome_of_the_call fs csv_path start_date end_date :
  let outcome :=
    (compute_daily_sales parse_datetime csv_path start_date end_date fs).1 in
  (outcome = Err ReadError ↔ fs !! csv_path = None) ∧
  (outcome = Err ParseError ↔
     is_Some (fs !! csv_path) ∧
     ((truthy start_date = true ∧
       to_datetime parse_datetime start_date = Err ParseError) ∨
      (truthy end_date = true ∧
       to_datetime parse_datetime end_date = Err ParseError))) ∧
  (outcome = Err DateRangeError ↔
     post_filter parse_datetime fs csv_path start_date end_date []) ∧
  ((∃ out, outcome = Ok out) ↔
     ∃ kept, post_filter parse_datetime fs csv_path start_date end_date kept
             ∧ kept ≠ []).
Proof.
  simpl. unfold post_filter, compute_daily_sales, read_csv, daily_sales.
  destruct (fs !! csv_path) as [df|] eqn:Hdf; simpl.
  - destruct (filter_bounds parse_datetime start_date end_date
                (assign_line_revenue df)) as [kept|e] eqn:Hkept; simpl.
    + split_and!.
      * split; [|done]. intros Herr. by apply aggregate_Err in Herr as [? _].
      * split.
        -- intros Herr. by apply aggregate_Err in Herr as [? _].
        -- intros [_ Hparse].
           assert (filter_bounds parse_datetime start_date end_date
                     (assign_line_revenue df) = Err ParseError) as Hbad
             by by apply filter_bounds_Err.
           congruence.
      * rewrite aggregate_Err. split.
        -- intros [_ ->]. by exists df.
        -- intros (df' & [= <-] & Heq). split; [done | congruence].
      * split.
        -- intros [out Hout]. exists kept. split; [by exists df|].
           intros ->. by rewrite aggregate_nil in Hout.
        -- intros (kept' & (df' & [= <-] & Heq) & Hne).
           apply aggregate_Ok. congruence.
    + pose proof (proj1 (filter_bounds_Err _ _ _ _) Hkept) as [-> Hparse].
      split_and!.
      * done.
      * split; [by intros _; split; [eexists|] | done].
      * split; [done|]. intros (df' & [= <-] & Heq). congruence.
      * split; [by intros [out ?]|].
        intros (kept' & (df' & [= <-] & Heq) & _). congruence.
  - split_and!.
    + done.
    + split; [done|]. by intros [[? ?] _].
    + split; [done|]. by intros (df & ? & _).
    + split; [by intros [out ?]|]. by intros (kept & (df & ? & _) & _).
Qed.

(** X10.  Bounds in the wrong order fail: when both bounds are truthy and
    the start bound is later than the end bound, no record passes and the
    call on a readable file fails with [DateRangeError]. *)
Theorem reversed_bounds_fail fs csv_path start_date end_date df a b :
  fs !! csv_path = Some df →
  truthy start_date = true → truthy end_date = true →
  to_datetime parse_datetime start_date = Ok (Some a) →
  to_datetime parse_datetime end_date = Ok (Some b) →
  b < a →
  (compute_daily_sales parse_datetime csv_path start_date end_date fs).1
  = Err DateRangeError.
Proof.
  intros Hdf Hs He Ha Hb Hlt.
  rewrite (compute_daily_sales_aggregate parse_datetime _ _ _ _ []); [done|].
  exists df. split; [done|].
  unfold filter_bounds, filter_start, filter_end.
  rewrite Hs, He, Ha, Hb. simpl. f_equal.
  apply filter_nil_Forall, Forall_forall. intros r Hr.
  apply list_elem_of_filter in Hr as [Hge _].
  unfold ge_bound, le_bound in *. simpl in *. lia.
Qed.

(** ** Bounds and the days they keep *)

Lemma rows_at_filter_date (P : sales_row → Prop) `{!∀ r, Decision (P r)}
    t df :
  (∀ r, date (rec r) = t → P r) →
  rows_at t (filter P df) = rows_at t df.
Proof.
  intros HP. unfold rows_at. rewrite list_filter_filter.
  apply list_filter_iff. intros r. split; [tauto|]. intros Hr. split; auto.
Qed.

Lemma filter_start_rows_at start_date df df' r :
  filter_start parse_datetime start_date df = Ok df' → r ∈ df' →
  r ∈ df ∧ rows_at (date (rec r)) df' = rows_at (date (rec r)) df.
Proof.
  unfold filter_start. destruct (truthy start_date); [|by intros [= <-]].
  destruct (to_datetime _ _) as [b|]; simpl; [|done].
  intros [= <-] [Hb Hr]%list_elem_of_filter. split; [done|].
  apply rows_at_filter_date. intros r' Hr'.
  destruct b as [b|]; simpl in *; [lia | done].
Qed.

Lemma filter_end_rows_at end_date df df' r :
  filter_end parse_datetime end_date df = Ok df' → r ∈ df' →
  r ∈ df ∧ rows_at (date (rec r)) df' = rows_at (date (rec r)) df.
Proof.
  unfold filter_end. destruct (truthy end_date); [|by intros [= <-]].
  destruct (to_datetime _ _) as [b|]; simpl; [|done].
  intros [= <-] [Hb Hr]%list_elem_of_filter. split; [done|].
  apply rows_at_filter_date. intros r' Hr'.
  destruct b as [b|]; simpl in *; [lia | done].
Qed.

Lemma filter_bounds_rows_at start_date end_date df kept r :
  filter_bounds parse_datetime start_date end_date df = Ok kept → r ∈ kept →
  rows_at (date (rec r)) kept = rows_at (date (rec r)) df.
Proof.
  unfold filter_bounds.
  destruct (filter_start _ _ _) as [df1|] eqn:H1; simpl; [|done].
  intros H2 Hr.
  destruct (filter_end_rows_at _ _ _ _ H2 Hr) as [Hr1 ->].
  by destruct (filter_start_rows_at _ _ _ _ H1 Hr1) as [_ ->].
Qed.

(** A record of the file whose date lies between the dates of two records
    that pass the bounds passes them as well. *)
Lemma filter_bounds_between start_date end_date df kept r0 r1 r :
  filter_bounds parse_datetime start_date end_date df = Ok kept →
  r0 ∈ kept → r1 ∈ kept → r ∈ df →
  date (rec r0) ≤ date (rec r) → date (rec r) ≤ date (rec r1) →
  r ∈ kept.
Proof.
  intros Hkept H0 H1 Hr Hlo Hhi.
  pose proof (filter_bounds_elem _ _ _ _ _ Hkept) as Hin.
  apply Hin in H0 as (_ & Hs & _). apply Hin in H1 as (_ & _ & He).
  apply Hin. split_and!; [done| |].
  - intros Ht. destruct (Hs Ht) as (b & ? & ?). exists b. split; [done|lia].
  - intros Ht. destruct (He Ht) as (b & ? & ?). exists b. split; [done|lia].
Qed.

(** X11.  Filtering before the aggregation changes no day that is kept: a
    row of the table computed with bounds has the daily revenue and the
    transaction count of the row with the same timestamp in the table
    computed without bounds. *)
Theorem bounds_keep_daily_values fs csv_path start_date end_date
    out out' row row' :
  returns parse_datetime fs csv_path start_date end_date out →
  returns parse_datetime fs csv_path PyNone PyNone out' →
  row ∈ out → row' ∈ out' → index row = index row' →
  daily_revenue row = daily_revenue row' ∧
  daily_transactions row = daily_transactions row'.
Proof.
  intros Hout Hout' Hrow Hrow' Hidx.
  destruct (returns_inv _ _ _ _ _ _ Hout) as (kept & Hkept & _).
  destruct (returns_inv _ _ _ _ _ _ Hout') as (all & Hall & _).
  destruct (returns_aggregated _ _ _ _ _ _ _ Hkept Hout)
    as (tmin & tmax & Hagg).
  destruct (returns_aggregated _ _ _ _ _ _ _ Hall Hout')
    as (tmin' & tmax' & Hagg').
  destruct (agg_row _ _ _ _ Hagg row Hrow) as [-> ->].
  destruct (agg_row _ _ _ _ Hagg' row' Hrow') as [-> ->].
  rewrite <-Hidx.
  destruct Hkept as (df & Hdf & Hkept).
  destruct Hall as (df' & Hdf' & [= <-]).
  assert (df' = df) as -> by congruence.
  assert (rows_at (index row) kept
          = rows_at (index row) (assign_line_revenue df)) as ->; [|done].
  destruct (rows_at (index row) kept) as [|r rs] eqn:Hrs.
  - symmetry. apply filter_nil_Forall, Forall_forall. intros r Hr Hdate.
    destruct (agg_earliest _ _ _ _ Hagg) as [Hin0 _].
    destruct (agg_latest _ _ _ _ Hagg) as [Hin1 _].
    apply list_elem_of_fmap in Hin0 as (r0 & Hr0 & Hin0).
    apply list_elem_of_fmap in Hin1 as (r1 & Hr1 & Hin1).
    simpl in Hr0, Hr1.
    assert (index row ∈ daily_steps tmin tmax) as Hgrid.
    { rewrite <-(agg_index _ _ _ _ Hagg). by apply list_elem_of_fmap_2. }
    apply elem_of_daily_steps in Hgrid as (Hlo & Hhi & _).
    assert (r ∈ kept) as Hk.
    { eapply (filter_bounds_between _ _ _ _ r0 r1); [done..| |]; lia. }
    assert (r ∈ rows_at (index row) kept) as Hbad.
    { apply list_elem_of_filter. by split. }
    rewrite Hrs in Hbad. by apply elem_of_nil in Hbad.
  - assert (r ∈ rows_at (index row) kept) as Hr.
    { rewrite Hrs. apply list_elem_of_here. }
    apply list_elem_of_filter in Hr as [Hdate Hr].
    rewrite <-Hrs, <-Hdate. by eapply filter_bounds_rows_at.
Qed.

(** ** The order of the rows of the file *)

Lemma sum_Qc_Permutation xs ys : xs ≡ₚ ys → sum_Qc xs = sum_Qc ys.
Proof.
  induction 1 as [|x xs ys _ IH|x y xs|xs ys zs _ IH1 _ IH2].
  - done.
  - by rewrite !sum_Qc_cons, IH.
  - rewrite !sum_Qc_cons. ring.
  - by rewrite IH1.
Qed.

Lemma nunique_size (l : list Z) : nunique l = size (list_to_set l : gset Z).
Proof.
  unfold nunique.
  rewrite <-(size_list_to_set (C:=gset Z) (remove_dups l))
    by apply NoDup_remove_dups.
  f_equal. apply set_eq. intros x.
  by rewrite !elem_of_list_to_set, elem_of_remove_dups.
Qed.

Lemma nunique_Permutation (l l' : list Z) : l ≡ₚ l' → nunique l = nunique l'.
Proof.
  intros Hperm. rewrite !nunique_size. f_equal. apply set_eq. intros x.
  by rewrite !elem_of_list_to_set, Hperm.
Qed.

Lemma agg_groupby_Permutation df df' :
  df ≡ₚ df' →
  sort_index (agg (groupby df)) = sort_index (agg (groupby df')).
Proof.
  intros Hperm. apply map_eq. intros t.
  pose proof (lookup_agg_groupby df t) as H1.
  pose proof (lookup_agg_groupby df' t) as H2.
  assert (is_Some (sort_index (agg (groupby df)) !! t)
          ↔ is_Some (sort_index (agg (groupby df')) !! t)) as Hdom.
  { rewrite <-!elem_of_dom, !dom_agg_groupby, !elem_of_list_to_set.
    by rewrite Hperm. }
  assert (rows_at t df ≡ₚ rows_at t df') as Hrows.
  { unfold rows_at. by rewrite Hperm. }
  rewrite (sum_Qc_Permutation _ (line_revenue <$> rows_at t df')) in H1
    by by rewrite Hrows.
  rewrite (nunique_Permutation _ (transaction_id ∘ rec <$> rows_at t df'))
    in H1 by by rewrite Hrows.
  rewrite <-H2 in H1.
  destruct (sort_index (agg (groupby df)) !! t) as [v|],
           (sort_index (agg (groupby df')) !! t) as [v'|]; simpl in *.
  - by subst.
  - destruct Hdom as [Hdom _]. by destruct Hdom as [? ?]; [eexists|].
  - destruct Hdom as [_ Hdom]. by destruct Hdom as [? ?]; [eexists|].
  - done.
Qed.

Lemma aggregate_Permutation df df' :
  df ≡ₚ df' → aggregate df = aggregate df'.
Proof.
  intros Hperm. unfold aggregate. by rewrite (agg_groupby_Permutation df df').
Qed.

Lemma filter_bounds_Permutation start_date end_date df df' :
  df ≡ₚ df' →
  match filter_bounds parse_datetime start_date end_date df,
        filter_bounds parse_datetime start_date end_date df' with
  | Ok kept, Ok kept' => kept ≡ₚ kept'
  | Err e, Err e' => e = e'
  | _, _ => False
  end.
Proof.
  intros Hperm. unfold filter_bounds, filter_start, filter_end.
  destruct (truthy start_date);
    [destruct (to_datetime parse_datetime start_date) as [b1|]; simpl;
       [|done] |];
    (destruct (truthy end_date);
       [destruct (to_datetime parse_datetime end_date) as [b2|]; simpl;
          [|done] |]);
    simpl; by rewrite ?Hperm.
Qed.

(** X12.  The order of the rows in the file does not matter: two files with
    the same rows in different orders give the same outcome, table or
    failure. *)
Theorem row_order_is_irrelevant fs fs' csv_path start_date end_date df df' :
  fs !! csv_path = Some df → fs' !! csv_path = Some df' → df ≡ₚ df' →
  (compute_daily_sales parse_datetime csv_path start_date end_date fs).1
  = (compute_daily_sales parse_datetime csv_path start_date end_date fs').1.
Proof.
  intros Hdf Hdf' Hperm.
  rewrite (compute_daily_sales_read _ _ _ _ _ _ Hdf).
  rewrite (compute_daily_sales_read _ _ _ _ _ _ Hdf'). simpl.
  unfold daily_sales.
  assert (assign_line_revenue df ≡ₚ assign_line_revenue df') as Hperm'.
  { unfold assign_line_revenue. by rewrite Hperm. }
  pose proof (filter_bounds_Permutation start_date end_date _ _ Hperm')
    as Hf.
  destruct (filter_bounds _ _ _ (assign_line_revenue df)) as [kept|e],
           (filter_bounds _ _ _ (assign_line_revenue df')) as [kept'|e'];
    simpl; try done.
  - by apply aggregate_Permutation.
  - by subst.
Qed.

(** * The dashboard *)

(** Filtering on a property that holds at the positions [i], ..., [j - 1]
    and at no other cuts out that segment. *)
Lemma filter_segment {A} (P : A → Prop) `{!∀ x, Decision (P x)}
    (l : list A) (i j : nat) :
  (∀ k x, l !! k = Some x → P x ↔ (i ≤ k < j)%nat) →
  filter P l = take (j - i) (drop i l).
Proof.
  intros HP.
  rewrite <-(take_drop i l) at 1. rewrite filter_app.
  rewrite (filter_nil_Forall P (take i l)); last first.
  { apply Forall_lookup. intros k x Hk HPx.
    apply lookup_take_Some in Hk as [Hk Hlt].
    apply (HP k x Hk) in HPx. lia. }
  rewrite <-(take_drop (j - i) (drop i l)) at 1. rewrite filter_app.
  rewrite (filter_nil_Forall P (drop (j - i) (drop i l))); last first.
  { apply Forall_lookup. intros k x Hk HPx.
    rewrite !lookup_drop in Hk. apply (HP _ x Hk) in HPx. lia. }
  rewrite filter_all, app_nil_r; [done|].
  apply Forall_lookup. intros k x Hk.
  apply lookup_take_Some in Hk as [Hk Hlt]. rewrite lookup_drop in Hk.
  apply (HP _ x Hk). lia.
Qed.

Lemma midnight_le d d' : midnight d ≤ midnight d' ↔ d ≤ d'.
Proof. unfold midnight. pose proof NS_PER_DAY_pos. nia. Qed.

Lemma calendar_day_midnight d : calendar_day (midnight d) = d.
Proof. unfold calendar_day, midnight. by apply Z.div_mul. Qed.

Lemma time_of_day_bounds t : 0 ≤ time_of_day t < NS_PER_DAY.
Proof. apply Z.mod_pos_bound, NS_PER_DAY_pos. Qed.

Lemma timestamp_split t : t = midnight (calendar_day t) + time_of_day t.
Proof.
  unfold midnight, calendar_day, time_of_day.
  pose proof (Z.div_mod t NS_PER_DAY). pose proof NS_PER_DAY_pos. lia.
Qed.

(** The timestamp of the last row of the table. *)
Lemma aggregated_frame_ends df tmin tmax out :
  aggregated df tmin tmax out →
  frame_min out = Some tmin ∧
  frame_max out
  = Some (tmin + Z.of_nat (length out - 1) * NS_PER_DAY).
Proof.
  intros Hagg.
  destruct (aggregated_head _ _ _ _ Hagg) as (row0 & Hrow0 & Hidx0).
  pose proof (lookup_lt_Some _ _ _ Hrow0) as Hlen.
  destruct (lookup_lt_is_Some_2 out (length out - 1)) as [rowN HrowN];
    [lia|].
  pose proof (aggregated_lookup _ _ _ _ _ _ Hagg HrowN) as HidxN.
  assert (Hall : ∀ t, t ∈ index <$> out →
            tmin ≤ t ≤ tmin + Z.of_nat (length out - 1) * NS_PER_DAY).
  { intros t (row & -> & Hrow)%list_elem_of_fmap.
    apply list_elem_of_lookup in Hrow as [k Hk].
    rewrite (aggregated_lookup _ _ _ _ _ _ Hagg Hk).
    apply lookup_lt_Some in Hk. pose proof NS_PER_DAY_pos. nia. }
  split.
  - unfold frame_min. pose proof (foldr_min_spec (index <$> out)) as Hmin.
    destruct (foldr _ None _) as [m|].
    + f_equal. eapply earliest_unique; [exact Hmin|]. split.
      * rewrite <-Hidx0. apply list_elem_of_fmap_2.
        by eapply list_elem_of_lookup_2.
      * apply Forall_forall. intros t Ht. by apply Hall.
    + apply fmap_nil_inv in Hmin. subst out. simpl in Hlen. lia.
  - unfold frame_max. pose proof (foldr_max_spec (index <$> out)) as Hmax.
    destruct (foldr _ None _) as [m|].
    + f_equal. eapply latest_unique; [exact Hmax|]. split.
      * rewrite <-HidxN. apply list_elem_of_fmap_2.
        by eapply list_elem_of_lookup_2.
      * apply Forall_forall. intros t Ht. by apply Hall.
    + apply fmap_nil_inv in Hmax. subst out. simpl in Hlen. lia.
Qed.

Lemma dashboard_page picked_start picked_end fs df tmin tmax out :
  returns parse_datetime fs csv PyNone PyNone out →
  aggregated df tmin tmax out →
  let shown :=
    loc_slice
      (midnight (date_input (calendar_day tmin) picked_start))
      (midnight
         (date_input
            (calendar_day (tmin + Z.of_nat (length out - 1) * NS_PER_DAY))
            picked_end)) out in
  (dashboard parse_datetime picked_start picked_end fs).1
  = Ok {| df_filtered := shown; figures := summarize shown |}.
Proof.
  intros Hout Hagg. unfold dashboard. unfold returns, csv in Hout.
  destruct (compute_daily_sales _ _ _ _ _) as [r fs1]. simpl in *.
  subst r. simpl.
  destruct (aggregated_frame_ends _ _ _ _ Hagg) as [-> ->]. done.
Qed.

(** X13.  With both date pickers untouched and dates that carry no time of
    day, the dashboard shows the whole table, and its total revenue is the
    net amount of all the rows of the file. *)
Theorem dashboard_default_shows_everything fs df :
  fs !! csv = Some df → df ≠ [] →
  Forall (λ r, date_only (date r)) df →
  ∃ out,
    returns parse_datetime fs csv PyNone PyNone out ∧
    (dashboard parse_datetime None None fs).1
    = Ok {| df_filtered := out; figures := summarize out |} ∧
    total_revenue (summarize out) = sum_Qc (net_amount <$> df).
Proof.
  intros Hdf Hne Hdates.
  assert (post_filter parse_datetime fs csv PyNone PyNone
            (assign_line_revenue df)) as Hkept by by exists df.
  assert (assign_line_revenue df ≠ []) as Hne'.
  { intros Hnil. by apply fmap_nil_inv in Hnil. }
  assert (Forall (λ r, date_only (date (rec r))) (assign_line_revenue df))
    as Hdates' by by apply Forall_fmap.
  destruct (post_filter_returns _ _ _ _ _ _ Hkept Hne') as [out Hout].
  destruct (returns_aggregated _ _ _ _ _ _ _ Hkept Hout)
    as (tmin & tmax & Hagg).
  exists out. split_and!; [done| |].
  - rewrite (dashboard_page None None _ _ _ _ _ Hout Hagg). simpl.
    assert (loc_slice (midnight (calendar_day tmin))
              (midnight
                 (calendar_day
                    (tmin + Z.of_nat (length out - 1) * NS_PER_DAY))) out
            = out) as ->; [|done].
    apply filter_all, Forall_lookup. intros k row Hk.
    pose proof (aggregated_first_date_only _ _ _ _ Hagg Hdates') as Hmid.
    apply date_only_midnight in Hmid.
    rewrite (aggregated_lookup _ _ _ _ _ _ Hagg Hk), calendar_day_add.
    apply lookup_lt_Some in Hk.
    unfold midnight in *. pose proof NS_PER_DAY_pos.
    remember (calendar_day tmin) as d. rewrite Hmid. nia.
  - simpl. rewrite (aggregated_revenue_conserved _ _ _ _ Hagg Hdates').
    unfold assign_line_revenue. by rewrite <-list_fmap_compose.
Qed.

(** X14.  With both date pickers untouched and a table whose rows carry a
    time of day, the dashboard leaves out the last row of the table: the
    end of the default range is the midnight that begins its day. *)
Theorem dashboard_default_drops_last_row fs out row :
  returns parse_datetime fs csv PyNone PyNone out →
  head out = Some row → ¬ date_only (index row) →
  (dashboard parse_datetime None None fs).1
  = Ok {| df_filtered := take (length out - 1) out;
          figures := summarize (take (length out - 1) out) |}.
Proof.
  intros Hout Hrow Htod.
  destruct (returns_inv _ _ _ _ _ _ Hout) as (kept & Hkept & _).
  destruct (returns_aggregated _ _ _ _ _ _ _ Hkept Hout)
    as (tmin & tmax & Hagg).
  rewrite (dashboard_page None None _ _ _ _ _ Hout Hagg). simpl.
  rewrite head_lookup in Hrow.
  pose proof (aggregated_lookup _ _ _ _ _ _ Hagg Hrow) as Hidx.
  replace (index row) with tmin in Htod by lia.
  assert (0 < time_of_day tmin < NS_PER_DAY) as Hrange.
  { pose proof (time_of_day_bounds tmin). unfold date_only in Htod. lia. }
  assert (loc_slice (midnight (calendar_day tmin))
            (midnight
               (calendar_day
                  (tmin + Z.of_nat (length out - 1) * NS_PER_DAY))) out
          = take (length out - 1) out) as ->; [|done].
  unfold loc_slice.
  rewrite (filter_segment _ out 0 (length out - 1)).
  { by rewrite drop_0, Nat.sub_0_r. }
  intros k r Hk.
  rewrite (aggregated_lookup _ _ _ _ _ _ Hagg Hk), calendar_day_add.
  apply lookup_lt_Some in Hk.
  pose proof (timestamp_split tmin) as Hsplit.
  unfold midnight in *. pose proof NS_PER_DAY_pos. split; [|nia].
  intros [_ Hhi].
  assert (Z.of_nat k < Z.of_nat (length out - 1)); [nia|lia].
Qed.

(** X15.  Picking an end day before the start day shows nothing: the table
    is empty, the totals are zero and the average is undefined. *)
Theorem dashboard_reversed_selection fs out s e :
  returns parse_datetime fs csv PyNone PyNone out →
  e < s →
  (dashboard parse_datetime (Some s) (Some e) fs).1
  = Ok {| df_filtered := [];
          figures := {| total_revenue := 0%Qc; total_days := 0%nat;
                        avg_revenue := None;
                        total_transactions := 0%nat |} |}.
Proof.
  intros Hout Hlt.
  destruct (returns_inv _ _ _ _ _ _ Hout) as (kept & Hkept & _).
  destruct (returns_aggregated _ _ _ _ _ _ _ Hkept Hout)
    as (tmin & tmax & Hagg).
  rewrite (dashboard_page (Some s) (Some e) _ _ _ _ _ Hout Hagg). simpl.
  assert (loc_slice (midnight s) (midnight e) out = []) as ->; [|done].
  apply filter_nil_Forall, Forall_forall. intros r _ [Hlo Hhi].
  assert (midnight s ≤ midnight e) as Hle by (etrans; eassumption).
  apply (proj1 (midnight_le s e)) in Hle. lia.
Qed.

(** X16.  For dates that carry no time of day and two picked days inside
    the range of the table, the dashboard shows the rows from the start day
    to the end day, one per day; and, for amounts as exact numbers (the
    rounding of floating-point sums apart), its total revenue is the growth
    of the cumulative revenue over these rows: the cumulative revenue of
    the last shown row, less that of the first, plus the daily revenue of
    the first. *)
Theorem dashboard_selection fs df d0 dn s e :
  fs !! csv = Some df →
  Forall (λ r, date_only (date r)) df →
  earliest d0 (calendar_day ∘ date <$> df) →
  latest dn (calendar_day ∘ date <$> df) →
  d0 ≤ s → s ≤ e → e ≤ dn →
  ∃ pg a b,
    (dashboard parse_datetime (Some s) (Some e) fs).1 = Ok pg ∧
    head (df_filtered pg) = Some a ∧
    last (df_filtered pg) = Some b ∧
    index a = midnight s ∧
    index b = midnight e ∧
    total_days (figures pg) = Z.to_nat (e - s + 1) ∧
    total_revenue (figures pg)
    = (cumulative_revenue b - cumulative_revenue a + daily_revenue a)%Qc.
Proof.
  intros Hdf Hdates Hd0 Hdn Hs Hse He.
  pose proof NS_PER_DAY_pos as Hpos.
  assert (post_filter parse_datetime fs csv PyNone PyNone
            (assign_line_revenue df)) as Hkept by by exists df.
  assert (assign_line_revenue df ≠ []) as Hne.
  { intros Hnil. apply fmap_nil_inv in Hnil. subst df.
    destruct Hd0 as [Hin _]. by apply elem_of_nil in Hin. }
  assert (Forall (λ r, date_only (date (rec r))) (assign_line_revenue df))
    as Hdates' by by apply Forall_fmap.
  assert (Hdays : calendar_day ∘ date ∘ rec <$> assign_line_revenue df
                  = calendar_day ∘ date <$> df).
  { unfold assign_line_revenue. by rewrite <-list_fmap_compose. }
  destruct (post_filter_returns _ _ _ _ _ _ Hkept Hne) as [out Hout].
  destruct (returns_aggregated _ _ _ _ _ _ _ Hkept Hout)
    as (tmin & tmax & Hagg).
  pose proof (aggregated_first_date_only _ _ _ _ Hagg Hdates') as Hmin.
  pose proof (aggregated_last_date_only _ _ _ _ Hagg Hdates') as Hmax.
  apply date_only_midnight in Hmin, Hmax.
  assert (calendar_day tmin = d0) as Hcd0.
  { eapply earliest_unique; [|exact Hd0]. rewrite <-Hdays.
    rewrite (list_fmap_compose (date ∘ rec) calendar_day).
    apply earliest_calendar_day, (agg_earliest _ _ _ _ Hagg). }
  assert (calendar_day tmax = dn) as Hcdn.
  { eapply latest_unique; [|exact Hdn]. rewrite <-Hdays.
    rewrite (list_fmap_compose (date ∘ rec) calendar_day).
    apply latest_calendar_day, (agg_latest _ _ _ _ Hagg). }
  rewrite Hcd0 in Hmin. rewrite Hcdn in Hmax. unfold midnight in Hmin, Hmax.
  assert (length out = Z.to_nat (dn - d0 + 1)) as Hlen.
  { rewrite (aggregated_length _ _ _ _ Hagg). do 2 f_equal.
    rewrite Hmin, Hmax, <-Z.mul_sub_distr_r. apply Z.div_mul. lia. }
  set (i := Z.to_nat (s - d0)). set (j := Z.to_nat (e - d0 + 1)).
  assert (loc_slice (midnight s) (midnight e) out = take (j - i) (drop i out))
    as Hshown.
  { apply filter_segment. intros k row Hk.
    rewrite (aggregated_lookup _ _ _ _ _ _ Hagg Hk), Hmin.
    unfold midnight, i, j. split; [intros [? ?]; split; nia | nia]. }
  destruct (lookup_lt_is_Some_2 out i) as [a Ha]; [unfold i; lia|].
  destruct (lookup_lt_is_Some_2 out (j - 1)) as [b Hb]; [unfold j; lia|].
  exists {| df_filtered := take (j - i) (drop i out);
            figures := summarize (take (j - i) (drop i out)) |}, a, b.
  assert (length (take (j - i) (drop i out)) = (j - i)%nat) as Hlen'.
  { rewrite length_take, length_drop. unfold i, j. lia. }
  split_and!.
  - rewrite (dashboard_page (Some s) (Some e) _ _ _ _ _ Hout Hagg). simpl.
    by rewrite Hshown.
  - simpl. rewrite head_lookup, lookup_take_lt, lookup_drop, Nat.add_0_r
      by (unfold i, j; lia). done.
  - simpl. rewrite last_lookup, Hlen', lookup_take_lt, lookup_drop
      by (unfold i, j; lia).
    rewrite <-Hb. f_equal. unfold i, j. lia.
  - rewrite (aggregated_lookup _ _ _ _ _ _ Hagg Ha), Hmin.
    unfold midnight, i. nia.
  - rewrite (aggregated_lookup _ _ _ _ _ _ Hagg Hb), Hmin.
    unfold midnight, j. nia.
  - simpl. rewrite Hlen'. unfold i, j. lia.
  - simpl. rewrite fmap_take, fmap_drop.
    rewrite (aggregated_cumulative_lookup _ _ _ _ _ _ Hagg Ha).
    rewrite (aggregated_cumulative_lookup _ _ _ _ _ _ Hagg Hb).
    replace (S (j - 1)) with (i + (j - i))%nat by (unfold i, j; lia).
    rewrite <-(take_take_drop (daily_revenue <$> out) i (j - i)).
    rewrite (take_S_r (daily_revenue <$> out) i (daily_revenue a))
      by by rewrite list_lookup_fmap, Ha.
    rewrite !sum_Qc_app. simpl. ring.
Qed.

End Further.

(** * The further properties on sample inputs *)

Lemma returns_table_nine_days :
  returns sample_parser (store sales_nine_days) csv PyNone PyNone
    table_nine_days.
Proof. by vm_compute. Defined.

Lemma returns_table_dates :
  returns sample_parser (store sales_dates) csv PyNone PyNone table_dates.
Proof. by vm_compute. Defined.

Lemma returns_table_late :
  returns sample_parser (store sales_late) csv PyNone PyNone table_late.
Proof. by vm_compute. Defined.

Lemma rows_step_from_earliest_witness :
  post_filter sample_parser (store sales_late) csv PyNone PyNone
    (assign_line_revenue sales_late) ∧
  returns sample_parser (store sales_late) csv PyNone PyNone table_late ∧
  ∃ tmin tmax,
    earliest tmin (date ∘ rec <$> assign_line_revenue sales_late) ∧
    latest tmax (date ∘ rec <$> assign_line_revenue sales_late) ∧
    length table_late = Z.to_nat ((tmax - tmin) `div` NS_PER_DAY + 1) ∧
    ∀ (k : nat) row, table_late !! k = Some row →
      index row = tmin + Z.of_nat k * NS_PER_DAY ∧
      index row ≤ tmax ∧
      time_of_day (index row) = time_of_day tmin.
Proof.
  split_and!; [apply post_filter_unbounded | apply returns_table_late |].
  exact (rows_step_from_earliest sample_parser _ _ _ _ _ _
           (post_filter_unbounded sales_late) returns_table_late).
Defined.

Lemma first_row_has_sales_witness :
  post_filter sample_parser (store sales_dates) csv PyNone PyNone
    (assign_line_revenue sales_dates) ∧
  returns sample_parser (store sales_dates) csv PyNone PyNone table_dates ∧
  Forall (λ r, date_only (date (rec r))) (assign_line_revenue sales_dates) ∧
  (∃ row, head table_dates = Some row ∧
          earliest (index row)
            (date ∘ rec <$> assign_line_revenue sales_dates) ∧
          (1 ≤ daily_transactions row)%nat) ∧
  (∃ row, last table_dates = Some row ∧
          latest (index row)
            (date ∘ rec <$> assign_line_revenue sales_dates) ∧
          (1 ≤ daily_transactions row)%nat).
Proof.
  assert (Forall (λ r, date_only (date (rec r)))
            (assign_line_revenue sales_dates)) as Hdates
    by (repeat constructor).
  destruct (first_row_has_sales sample_parser _ _ _ _ _ _
              (post_filter_unbounded sales_dates) returns_table_dates)
    as [Hfirst Hlast].
  split_and!; [apply post_filter_unbounded | apply returns_table_dates
              | done | exact Hfirst | exact (Hlast Hdates)].
Defined.

Lemma no_transactions_no_revenue_witness :
  post_filter sample_parser (store sales_dates) csv PyNone PyNone
    (assign_line_revenue sales_dates) ∧
  returns sample_parser (store sales_dates) csv PyNone PyNone table_dates ∧
  ∃ row,
    table_dates !! 1%nat = Some row ∧
    daily_transactions row = 0%nat ∧
    daily_revenue row = 0%Qc ∧
    (daily_transactions row
     ≤ length (rows_at (index row) (assign_line_revenue sales_dates)))%nat.
Proof.
  split_and!; [apply post_filter_unbounded | apply returns_table_dates |].
  eexists. split; [reflexivity|].
  match goal with |- ?A ∧ _ => assert A as Hzero by reflexivity end.
  split; [exact Hzero|].
  refine (let H := no_transactions_no_revenue sample_parser _ _ _ _ _ _ _
                     (post_filter_unbounded sales_dates) returns_table_dates
                     _ in conj (proj1 H Hzero) (proj2 H)).
  by eapply (list_elem_of_lookup_2 _ 1%nat).
Defined.

Lemma revenue_of_the_daily_grid_witness :
  post_filter sample_parser (store sales_late) csv PyNone PyNone
    (assign_line_revenue sales_late) ∧
  returns sample_parser (store sales_late) csv PyNone PyNone table_late ∧
  (∃ tmin,
     earliest tmin (date ∘ rec <$> assign_line_revenue sales_late) ∧
     sum_Qc (daily_revenue <$> table_late)
     = sum_Qc (net_amount ∘ rec
                 <$> filter (λ r, time_of_day (date (rec r))
                                  = time_of_day tmin)
                       (assign_line_revenue sales_late)) ∧
     ∀ row, last table_late = Some row →
       cumulative_revenue row = sum_Qc (daily_revenue <$> table_late)) ∧
  this (sum_Qc (daily_revenue <$> table_late)) = 5%Q ∧
  this (sum_Qc (net_amount ∘ rec <$> assign_line_revenue sales_late)) = 12%Q.
Proof.
  split_and!; [apply post_filter_unbounded | apply returns_table_late
              | | done | done].
  exact (revenue_of_the_daily_grid sample_parser _ _ _ _ _ _
           (post_filter_unbounded sales_late) returns_table_late).
Defined.

Lemma revenue_is_conserved_witness :
  post_filter sample_parser (store sales_nine_days) csv PyNone PyNone
    (assign_line_revenue sales_nine_days) ∧
  returns sample_parser (store sales_nine_days) csv PyNone PyNone
    table_nine_days ∧
  Forall (λ r, date_only (date (rec r)))
    (assign_line_revenue sales_nine_days) ∧
  sum_Qc (daily_revenue <$> table_nine_days)
  = sum_Qc (net_amount ∘ rec <$> assign_line_revenue sales_nine_days) ∧
  (∀ row, last table_nine_days = Some row →
     cumulative_revenue row
     = sum_Qc (net_amount ∘ rec <$> assign_line_revenue sales_nine_days)) ∧
  this (sum_Qc (daily_revenue <$> table_nine_days)) = 77%Q.
Proof.
  assert (Forall (λ r, date_only (date (rec r)))
            (assign_line_revenue sales_nine_days)) as Hdates
    by (repeat constructor).
  destruct (revenue_is_conserved sample_parser _ _ _ _ _ _
              (post_filter_unbounded sales_nine_days)
              returns_table_nine_days Hdates) as [Hsum Hlast].
  split_and!; [apply post_filter_unbounded | apply returns_table_nine_days
              | done | exact Hsum | exact Hlast | done].
Defined.

Lemma moving_avg_from_cumulative_witness :
  returns sample_parser (store sales_nine_days) csv PyNone PyNone
    table_nine_days ∧
  (∃ row, table_nine_days !! 2%nat = Some row ∧
          moving_avg_7d row
          = Some (cumulative_revenue row / Qc_of_Z (Z.of_nat 3))%Qc) ∧
  (∃ row prev,
     table_nine_days !! 8%nat = Some row ∧
     table_nine_days !! (8 - 7)%nat = Some prev ∧
     moving_avg_7d row
     = Some ((cumulative_revenue row - cumulative_revenue prev)
             / Qc_of_Z 7)%Qc).
Proof.
  split_and!; [apply returns_table_nine_days | |].
  - eexists. split; [reflexivity|].
    refine (proj1 (moving_avg_from_cumulative sample_parser _ _ _ _ _ 2%nat _
                     returns_table_nine_days eq_refl) _). lia.
  - eexists _, _. split_and!; [reflexivity | reflexivity |].
    refine (proj2 (moving_avg_from_cumulative sample_parser _ _ _ _ _ 8%nat _
                     returns_table_nine_days eq_refl) _ _ eq_refl). lia.
Defined.

Lemma moving_avg_within_revenue_bounds_witness :
  returns sample_parser (store sales_nine_days) csv PyNone PyNone
    table_nine_days ∧
  Forall (λ r, (Qc_of_Z 0 ≤ daily_revenue r
                ∧ daily_revenue r ≤ Qc_of_Z 70)%Qc) table_nine_days ∧
  ∃ row avg,
    table_nine_days !! 8%nat = Some row ∧
    moving_avg_7d row = Some avg ∧
    (Qc_of_Z 0 ≤ avg ∧ avg ≤ Qc_of_Z 70)%Qc.
Proof.
  assert (Forall (λ r, (Qc_of_Z 0 ≤ daily_revenue r
                        ∧ daily_revenue r ≤ Qc_of_Z 70)%Qc) table_nine_days)
    as Hbounds by (repeat constructor; by vm_compute).
  split_and!; [apply returns_table_nine_days | done |].
  eexists.
  refine (let H := moving_avg_within_revenue_bounds sample_parser _ _ _ _ _
                     (Qc_of_Z 0) (Qc_of_Z 70) _ returns_table_nine_days
                     Hbounds
                     (list_elem_of_lookup_2 table_nine_days 8%nat _ eq_refl)
          in _).
  destruct H as (avg & Havg & Hrange).
  exists avg. split; [reflexivity|]. split; [exact Havg | exact Hrange].
Defined.

Lemma day_of_week_repeats_weekly_witness :
  returns sample_parser (store sales_nine_days) csv PyNone PyNone
    table_nine_days ∧
  ∃ a b,
    table_nine_days !! 1%nat = Some a ∧
    table_nine_days !! 8%nat = Some b ∧
    (1 mod 7 = 8 mod 7)%nat ∧
    day_of_week a = day_of_week b ∧
    day_of_week a = "Tuesday"%string.
Proof.
  split; [apply returns_table_nine_days|].
  eexists _, _.
  split; [reflexivity|]. split; [reflexivity|]. split; [reflexivity|].
  split; [|reflexivity].
  exact (proj2 (day_of_week_repeats_weekly sample_parser _ _ _ _ _
                  1%nat 8%nat _ _ returns_table_nine_days eq_refl eq_refl)
               eq_refl).
Defined.

Lemma outcome_of_the_call_witness :
  (* no such file *)
  (∅ : gmap string (list record)) !! csv = None ∧
  (compute_daily_sales sample_parser csv PyNone PyNone ∅).1 = Err ReadError ∧
  (* a bound the parser rejects *)
  is_Some (store sales_dates !! csv) ∧
  truthy (PyStr "yesterday") = true ∧
  to_datetime sample_parser (PyStr "yesterday") = Err ParseError ∧
  (compute_daily_sales sample_parser csv (PyStr "yesterday") PyNone
     (store sales_dates)).1 = Err ParseError ∧
  (* bounds that leave a record *)
  post_filter sample_parser (store sales_dates) csv (PyStr "2024-01-02")
    PyNone (assign_line_revenue (drop 1 sales_dates)) ∧
  ∃ out,
    (compute_daily_sales sample_parser csv (PyStr "2024-01-02") PyNone
       (store sales_dates)).1 = Ok out.
Proof.
  assert (post_filter sample_parser (store sales_dates) csv
            (PyStr "2024-01-02") PyNone
            (assign_line_revenue (drop 1 sales_dates))) as Hkept.
  { exists sales_dates. split; [apply lookup_singleton_eq | by vm_compute]. }
  assert (is_Some (store sales_dates !! csv)) as Hfile.
  { exists sales_dates. apply lookup_singleton_eq. }
  destruct (outcome_of_the_call sample_parser ∅ csv PyNone PyNone)
    as (Hread & _).
  destruct (outcome_of_the_call sample_parser (store sales_dates) csv
              (PyStr "yesterday") PyNone) as (_ & Hparse & _).
  destruct (outcome_of_the_call sample_parser (store sales_dates) csv
              (PyStr "2024-01-02") PyNone) as (_ & _ & _ & Hok).
  split; [reflexivity|]. split; [exact (proj2 Hread eq_refl)|].
  split; [exact Hfile|]. split; [reflexivity|]. split; [reflexivity|].
  split; [exact (proj2 Hparse (conj Hfile (or_introl (conj eq_refl eq_refl))))|].
  split; [exact Hkept|].
  refine (proj2 Hok (ex_intro _ _ (conj Hkept _))). discriminate.
Defined.

Lemma reversed_bounds_fail_witness :
  store sales_dates !! csv = Some sales_dates ∧
  truthy (PyStr "2024-01-03") = true ∧
  truthy (PyStr "2024-01-02") = true ∧
  to_datetime sample_parser (PyStr "2024-01-03")
  = Ok (Some (midnight 19725)) ∧
  to_datetime sample_parser (PyStr "2024-01-02")
  = Ok (Some (midnight 19724)) ∧
  midnight 19724 < midnight 19725 ∧
  (compute_daily_sales sample_parser csv (PyStr "2024-01-03")
     (PyStr "2024-01-02") (store sales_dates)).1 = Err DateRangeError.
Proof.
  assert (store sales_dates !! csv = Some sales_dates) as Hdf
    by apply lookup_singleton_eq.
  assert (midnight 19724 < midnight 19725) as Hlt by reflexivity.
  split; [exact Hdf|]. do 4 (split; [reflexivity|]). split; [exact Hlt|].
  exact (reversed_bounds_fail sample_parser (store sales_dates) csv
           (PyStr "2024-01-03") (PyStr "2024-01-02") sales_dates
           (midnight 19725) (midnight 19724) Hdf
           eq_refl eq_refl eq_refl eq_refl Hlt).
Defined.

Lemma bounds_keep_daily_values_witness :
  returns sample_parser (store sales_dates) csv (PyStr "2024-01-02") PyNone
    table_dates_from_02 ∧
  returns sample_parser (store sales_dates) csv PyNone PyNone table_dates ∧
  ∃ row row',
    table_dates_from_02 !! 0%nat = Some row ∧
    table_dates !! 2%nat = Some row' ∧
    index row = index row' ∧
    daily_revenue row = daily_revenue row' ∧
    daily_transactions row = daily_transactions row' ∧
    cumulative_revenue row ≠ cumulative_revenue row'.
Proof.
  assert (returns sample_parser (store sales_dates) csv (PyStr "2024-01-02")
            PyNone table_dates_from_02) as Hout by (by vm_compute).
  split; [exact Hout|]. split; [apply returns_table_dates|].
  eexists _, _.
  split; [reflexivity|]. split; [reflexivity|]. split; [reflexivity|].
  refine (let H := bounds_keep_daily_values sample_parser _ _ _ _ _ _ _ _
                     Hout returns_table_dates
                     (list_elem_of_lookup_2 table_dates_from_02 0%nat _
                        eq_refl)
                     (list_elem_of_lookup_2 table_dates 2%nat _ eq_refl)
                     eq_refl in _).
  split; [exact (proj1 H)|]. split; [exact (proj2 H)|]. discriminate.
Defined.

Lemma row_order_is_irrelevant_witness :
  store sales_dates !! csv = Some sales_dates ∧
  store sales_dates_reversed !! csv = Some sales_dates_reversed ∧
  sales_dates ≡ₚ sales_dates_reversed ∧
  sales_dates ≠ sales_dates_reversed ∧
  (compute_daily_sales sample_parser csv PyNone (PyStr "2024-01-03")
     (store sales_dates)).1
  = (compute_daily_sales sample_parser csv PyNone (PyStr "2024-01-03")
       (store sales_dates_reversed)).1.
Proof.
  assert (store sales_dates !! csv = Some sales_dates) as Hdf
    by apply lookup_singleton_eq.
  assert (store sales_dates_reversed !! csv = Some sales_dates_reversed)
    as Hdf' by apply lookup_singleton_eq.
  assert (sales_dates ≡ₚ sales_dates_reversed) as Hperm.
  { unfold sales_dates_reversed. symmetry. apply reverse_Permutation. }
  split; [exact Hdf|]. split; [exact Hdf'|]. split; [exact Hperm|].
  split; [discriminate|].
  exact (row_order_is_irrelevant sample_parser _ _ _ _ _ _ _
           Hdf Hdf' Hperm).
Defined.

Lemma dashboard_default_shows_everything_witness :
  store sales_dates !! csv = Some sales_dates ∧
  sales_dates ≠ [] ∧
  Forall (λ r, date_only (date r)) sales_dates ∧
  ∃ out,
    returns sample_parser (store sales_dates) csv PyNone PyNone out ∧
    (dashboard sample_parser None None (store sales_dates)).1
    = Ok {| df_filtered := out; figures := summarize out |} ∧
    total_revenue (summarize out) = sum_Qc (net_amount <$> sales_dates).
Proof.
  assert (store sales_dates !! csv = Some sales_dates) as Hdf
    by apply lookup_singleton_eq.
  assert (sales_dates ≠ []) as Hne by discriminate.
  assert (Forall (λ r, date_only (date r)) sales_dates) as Hdates
    by (repeat constructor).
  split; [exact Hdf|]. split; [exact Hne|]. split; [exact Hdates|].
  exact (dashboard_default_shows_everything sample_parser _ _
           Hdf Hne Hdates).
Defined.

Lemma dashboard_default_drops_last_row_witness :
  returns sample_parser (store sales_late) csv PyNone PyNone table_late ∧
  ∃ row,
    head table_late = Some row ∧
    ¬ date_only (index row) ∧
    (dashboard sample_parser None None (store sales_late)).1
    = Ok {| df_filtered := take (length table_late - 1) table_late;
            figures := summarize (take (length table_late - 1) table_late) |}
    ∧ length table_late = 2%nat.
Proof.
  split; [apply returns_table_late|]. eexists.
  split; [reflexivity|].
  match goal with |- ?A ∧ _ => assert A as Htod by (by vm_compute) end.
  split; [exact Htod|]. split; [|reflexivity].
  exact (dashboard_default_drops_last_row sample_parser _ _ _
           returns_table_late eq_refl Htod).
Defined.

Lemma dashboard_reversed_selection_witness :
  returns sample_parser (store sales_dates) csv PyNone PyNone table_dates ∧
  19723 < 19725 ∧
  (dashboard sample_parser (Some 19725) (Some 19723) (store sales_dates)).1
  = Ok {| df_filtered := [];
          figures := {| total_revenue := 0%Qc; total_days := 0%nat;
                        avg_revenue := None;
                        total_transactions := 0%nat |} |}.
Proof.
  assert (19723 < 19725) as Hlt by reflexivity.
  split; [apply returns_table_dates|]. split; [exact Hlt|].
  exact (dashboard_reversed_selection sample_parser _ _ _ _
           returns_table_dates Hlt).
Defined.

Lemma dashboard_selection_witness :
  store sales_nine_days !! csv = Some sales_nine_days ∧
  Forall (λ r, date_only (date r)) sales_nine_days ∧
  earliest 19723 (calendar_day ∘ date <$> sales_nine_days) ∧
  latest 19731 (calendar_day ∘ date <$> sales_nine_days) ∧
  19723 ≤ 19723 ∧ 19723 ≤ 19729 ∧ 19729 ≤ 19731 ∧
  ∃ pg a b,
    (dashboard sample_parser (Some 19723) (Some 19729)
       (store sales_nine_days)).1 = Ok pg ∧
    head (df_filtered pg) = Some a ∧
    last (df_filtered pg) = Some b ∧
    index a = midnight 19723 ∧
    index b = midnight 19729 ∧
    total_days (figures pg) = Z.to_nat (19729 - 19723 + 1) ∧
    total_revenue (figures pg)
    = (cumulative_revenue b - cumulative_revenue a + daily_revenue a)%Qc.
Proof.
  assert (store sales_nine_days !! csv = Some sales_nine_days) as Hdf
    by apply lookup_singleton_eq.
  assert (Forall (λ r, date_only (date r)) sales_nine_days) as Hdates
    by (repeat constructor).
  assert (earliest 19723 (calendar_day ∘ date <$> sales_nine_days)) as Hd0.
  { apply (bool_decide_unpack _). by vm_compute. }
  assert (latest 19731 (calendar_day ∘ date <$> sales_nine_days)) as Hdn.
  { apply (bool_decide_unpack _). by vm_compute. }
  assert (19723 ≤ 19723) as H1 by done.
  assert (19723 ≤ 19729) as H2 by done.
  assert (19729 ≤ 19731) as H3 by done.
  split; [exact Hdf|]. split; [exact Hdates|]. split; [exact Hd0|].
  split; [exact Hdn|]. split; [exact H1|]. split; [exact H2|].
  split; [exact H3|].
  exact (dashboard_selection sample_parser _ _ _ _ _ _
           Hdf Hdates Hd0 Hdn H1 H2 H3).
Defined.

(** * The NovaMart loader and its first page *)

Section Loader_properties.

Context {frame : Type}.

Lemma read_all_Ok (data : gmap string frame) entries fs d :
  NoDup entries.*1 →
  read_all frame data entries fs = Ok d →
  (∀ key path, (key, path) ∈ entries → d !! key = fs !! path) ∧
  (∀ key, key ∉ entries.*1 → d !! key = data !! key) ∧
  Forall (λ e, is_Some (fs !! e.2)) entries.
Proof.
  revert data. induction entries as [|[k p] entries IH]; intros data Hnd.
  - simpl. intros [= <-]. split_and!; [|done|done].
    intros key path Hin. by apply elem_of_nil in Hin.
  - simpl in *. apply NoDup_cons in Hnd as [Hk Hnd].
    destruct (fs !! p) as [df|] eqn:Hp; [|done]. intros Hd.
    destruct (IH _ Hnd Hd) as (Hin & Hout & Hall). split_and!.
    + intros key path [[= -> ->]|Hmem]%elem_of_cons.
      * rewrite (Hout k Hk), lookup_insert_eq. done.
      * by apply Hin.
    + intros key Hkey. apply not_elem_of_cons in Hkey as [Hne Hkey].
      rewrite (Hout key Hkey). by rewrite lookup_insert_ne.
    + constructor; [simpl; rewrite Hp; by eexists | done].
Qed.

Lemma read_all_Err (data : gmap string frame) entries fs e :
  read_all frame data entries fs = Err e →
  e = ReadError ∧ ∃ key path, (key, path) ∈ entries ∧ fs !! path = None.
Proof.
  revert data. induction entries as [|[k p] entries IH]; intros data.
  - done.
  - simpl. destruct (fs !! p) as [df|] eqn:Hp.
    + intros Herr. destruct (IH _ Herr) as (-> & key & path & Hin & Hnone).
      split; [done|]. exists key, path. split; [|done].
      by apply list_elem_of_further.
    + intros [= <-]. split; [done|]. exists k, p.
      split; [apply list_elem_of_here | done].
Qed.

Lemma NoDup_data_files : NoDup data_files.*1.
Proof. by apply (bool_decide_unpack _). Qed.

(** X17.  The loader needs every one of its eleven files, also those no page
    displays: with an empty cache it fails with [ReadError] exactly when one
    of them cannot be read, and the dictionary it returns otherwise holds,
    under every key, the contents of the file of that key. *)
Theorem load_data_needs_every_file (st : app_state frame) :
  cache st = None →
  ((load_data frame st).1 = Err ReadError ↔
   ∃ key path, (key, path) ∈ data_files ∧ files st !! path = None) ∧
  (∀ data, (load_data frame st).1 = Ok data →
     ∀ key path, (key, path) ∈ data_files →
       is_Some (data !! key) ∧ data !! key = files st !! path).
Proof.
  intros Hcache. unfold load_data. rewrite Hcache.
  destruct (read_all frame ∅ data_files (files st)) as [d|e] eqn:Hread;
    simpl.
  - destruct (read_all_Ok _ _ _ _ NoDup_data_files Hread)
      as (Hin & _ & Hall).
    rewrite Forall_forall in Hall. split.
    + split; [done|]. intros (key & path & Hmem & Hnone).
      specialize (Hall _ Hmem). simpl in Hall. rewrite Hnone in Hall.
      by destruct Hall.
    + intros data [= <-] key path Hmem. rewrite (Hin key path Hmem).
      split; [|done]. apply (Hall _ Hmem).
  - destruct (read_all_Err _ _ _ _ Hread) as (-> & Hmissing).
    split; [done|]. by intros data.
Qed.

Lemma load_data_cached (st : app_state frame) data :
  cache st = Some data → load_data frame st = (Ok data, st).
Proof. intros H. unfold load_data. by rewrite H. Qed.

Lemma load_data_caches (st : app_state frame) data :
  (load_data frame st).1 = Ok data → cache (load_data frame st).2 = Some data.
Proof.
  unfold load_data. destruct (cache st) as [cached|] eqn:Hcache.
  - cbn [fst snd]. by intros [= <-].
  - destruct (read_all frame ∅ data_files (files st)) as [d|e];
      cbn [fst snd cache]; [by intros [= <-] | done].
Qed.

(** What the loader returned once it returns again, whatever has become of
    the files, and it keeps nothing of a call that failed. *)
Lemma load_data_is_cached (st : app_state frame) :
  (∀ data, (load_data frame st).1 = Ok data →
     ∀ files',
       (load_data frame
          {| files := files'; cache := cache (load_data frame st).2 |}).1
       = Ok data) ∧
  (∀ e, (load_data frame st).1 = Err e → (load_data frame st).2 = st).
Proof.
  split.
  - intros data Hdata files'.
    by rewrite (load_data_cached _ data) by by apply load_data_caches.
  - intros e. unfold load_data.
    destruct (cache st) as [cached|]; [done|].
    by destruct (read_all frame ∅ data_files (files st)) as [d|e'].
Qed.

End Loader_properties.

(** ** The bars of the channels *)

Lemma sum_Qc_groups {A K} `{EqDecision K} (key : A → K) (f : A → Qc)
    (ks : list K) (l : list A) :
  NoDup ks →
  sum_Qc ((λ k, sum_Qc (f <$> filter (λ x, key x = k) l)) <$> ks)
  = sum_Qc (f <$> filter (λ x, key x ∈ ks) l).
Proof.
  induction 1 as [|k ks Hk _ IH].
  - rewrite filter_nil_Forall; [done|].
    apply Forall_forall. intros r _. apply not_elem_of_nil.
  - rewrite fmap_cons, sum_Qc_cons, IH.
    rewrite <-(sum_Qc_filter_or f (λ x, key x = k) (λ x, key x ∈ ks)).
    + f_equal. f_equal. apply list_filter_iff. intros r.
      rewrite elem_of_cons. done.
    + intros r <- Hin. done.
Qed.

Lemma foldl_channel_add_lookup campaign g c :
  default 0%Qc (foldl channel_add g campaign !! c)
  = (default 0 (g !! c)
     + sum_Qc (revenue <$> filter (λ r, channel r = c) campaign))%Qc.
Proof.
  revert g. induction campaign as [|r campaign IH]; intros g; simpl.
  - by rewrite Qcplus_0_r.
  - rewrite IH. unfold channel_add.
    destruct (decide (channel r = c)) as [Heq|Hne].
    + rewrite filter_cons_True by exact Heq.
      rewrite Heq, lookup_insert_eq. simpl. by rewrite Qcplus_assoc.
    + rewrite filter_cons_False by exact Hne. by rewrite lookup_insert_ne.
Qed.

Lemma foldl_channel_add_dom campaign g :
  dom (foldl channel_add g campaign)
  = dom g ∪ list_to_set (channel <$> campaign).
Proof.
  revert g. induction campaign as [|r campaign IH]; intros g; simpl.
  - by rewrite (right_id_L ∅ (∪)).
  - rewrite IH. unfold channel_add. rewrite dom_insert_L.
    rewrite (comm_L (∪) _ (dom g)).
    by rewrite (assoc_L (∪)).
Qed.

Lemma elem_of_channel_totals campaign c v :
  (c, v) ∈ map_to_list (foldl channel_add ∅ campaign) ↔
  c ∈ channel <$> campaign ∧
  v = sum_Qc (revenue <$> filter (λ r, channel r = c) campaign).
Proof.
  rewrite elem_of_map_to_list.
  pose proof (foldl_channel_add_lookup campaign ∅ c) as Hv.
  rewrite lookup_empty in Hv. simpl in Hv. rewrite Qcplus_0_l in Hv.
  pose proof (foldl_channel_add_dom campaign ∅) as Hdom.
  rewrite dom_empty_L, (left_id_L ∅ (∪)) in Hdom.
  split.
  - intros Hc. rewrite Hc in Hv. simpl in Hv. split; [|done].
    apply (elem_of_list_to_set (C:=gset string)). rewrite <-Hdom.
    apply elem_of_dom. by eexists.
  - intros [Hin ->].
    apply (elem_of_list_to_set (C:=gset string)) in Hin.
    rewrite <-Hdom in Hin. apply elem_of_dom in Hin as [v Hc].
    rewrite Hc in Hv. simpl in Hv. by rewrite Hc, Hv.
Qed.

Global Instance channel_le_total : Total channel_le.
Proof. intros a b. apply String.leb_total. Qed.

(** X18.  The chart of the channels has one bar for every channel of the
    campaign frame and no other, each bar is the revenue of the rows of its
    channel, and the bars stand in the order of the channel names. *)
Theorem channel_bars_are_channel_totals campaign :
  (∀ c v, (c, v) ∈ channel_revenue campaign ↔
          c ∈ channel <$> campaign ∧
          v = sum_Qc (revenue <$> filter (λ r, channel r = c) campaign)) ∧
  NoDup (channel_revenue campaign).*1 ∧
  Sorted channel_le (channel_revenue campaign).
Proof.
  unfold channel_revenue. split_and!.
  - intros c v. rewrite merge_sort_Permutation.
    apply elem_of_channel_totals.
  - rewrite merge_sort_Permutation. apply NoDup_fst_map_to_list.
  - apply (Sorted_merge_sort channel_le).
Qed.

(** X19.  The bars of the channels add up to the figure "Total Revenue" of
    the same page. *)
Theorem channel_bars_add_up {customer} campaign (customers : list customer) :
  sum_Qc (channel_bars (executive_overview campaign customers)).*2
  = kpi_revenue (executive_overview campaign customers).
Proof.
  simpl. unfold channel_revenue.
  rewrite (sum_Qc_Permutation _
             (map_to_list (foldl channel_add ∅ campaign)).*2)
    by by rewrite merge_sort_Permutation.
  set (l := map_to_list (foldl channel_add ∅ campaign)).
  assert (l.*2
          = (λ c, sum_Qc (revenue <$> filter (λ r, channel r = c) campaign))
              <$> l.*1) as ->.
  { rewrite <-list_fmap_compose. apply list_fmap_ext. intros i [c v] Hi.
    simpl. apply list_elem_of_lookup_2 in Hi.
    by apply elem_of_channel_totals in Hi as [_ ->]. }
  rewrite sum_Qc_groups by apply NoDup_fst_map_to_list.
  f_equal. f_equal. apply filter_all, Forall_forall. intros r Hr.
  assert (channel r ∈ channel <$> campaign) as Hin
    by by apply list_elem_of_fmap_2.
  assert ((channel r,
           sum_Qc (revenue <$> filter (λ r', channel r' = channel r) campaign))
          ∈ l) as Hl by by apply elem_of_channel_totals.
  by apply (list_elem_of_fmap_2 fst) in Hl.
Qed.

Lemma load_data_needs_every_file_witness :
  let st := {| files := files_without_journey; cache := None |} in
  let st' := {| files := all_files; cache := None |} in
  cache st = None ∧
  ("journey", "customer_journey.csv")%string ∈ data_files ∧
  files st !! "customer_journey.csv"%string = None ∧
  (load_data nat st).1 = Err ReadError ∧
  cache st' = None ∧
  ∃ data,
    (load_data nat st').1 = Ok data ∧
    ("campaign", "campaign_performance.csv")%string ∈ data_files ∧
    is_Some (data !! "campaign"%string) ∧
    data !! "campaign"%string
    = files st' !! "campaign_performance.csv"%string.
Proof.
  intros st st'.
  assert (("journey", "customer_journey.csv")%string ∈ data_files) as Hj.
  { apply (bool_decide_unpack _). by vm_compute. }
  assert (("campaign", "campaign_performance.csv")%string ∈ data_files)
    as Hc.
  { apply (bool_decide_unpack _). by vm_compute. }
  assert (files st !! "customer_journey.csv"%string = None) as Hnone
    by apply lookup_delete_eq.
  destruct (load_data_needs_every_file st eq_refl) as [Hfail _].
  destruct (load_data_needs_every_file st' eq_refl) as [_ Hok].
  split; [reflexivity|]. split; [exact Hj|]. split; [exact Hnone|].
  split; [exact (proj2 Hfail (ex_intro _ _ (ex_intro _ _ (conj Hj Hnone))))|].
  split; [reflexivity|].
  destruct (load_data nat st').1 as [data|e] eqn:Hload.
  - exists data. split; [reflexivity|]. split; [exact Hc|].
    exact (Hok data eq_refl _ _ Hc).
  - exfalso. revert Hload. by vm_compute.
Defined.

Lemma channel_bars_of_campaign_sample :
  (λ bar, (bar.1, this bar.2)) <$> channel_revenue campaign_sample
  = [("Email", 10); ("Search", 65); ("Social", 5)]%string%Q ∧
  this (kpi_revenue (executive_overview campaign_sample [tt; tt])) = 80%Q.
Proof. by vm_compute. Qed.

Lemma channel_bars_are_channel_totals_witness :
  "Search"%string ∈ channel <$> campaign_sample ∧
  ("Search"%string,
   sum_Qc (revenue
             <$> filter (λ r, channel r = "Search"%string) campaign_sample))
  ∈ channel_revenue campaign_sample ∧
  this (sum_Qc (revenue
                  <$> filter (λ r, channel r = "Search"%string)
                        campaign_sample)) = 65%Q ∧
  NoDup (channel_revenue campaign_sample).*1 ∧
  Sorted channel_le (channel_revenue campaign_sample).
Proof.
  assert ("Search"%string ∈ channel <$> campaign_sample) as Hin.
  { apply (bool_decide_unpack _). by vm_compute. }
  destruct (channel_bars_are_channel_totals campaign_sample)
    as (Hbars & Hnodup & Hsorted).
  split; [exact Hin|].
  split; [exact (proj2 (Hbars _ _) (conj Hin eq_refl))|].
  split; [reflexivity|]. split; [exact Hnodup | exact Hsorted].
Defined.
